(** * RetrivalEngine: the retrieval cache and its invalidation protocol

    A shallow embedding of [src/services/retrival_engine.py].  The engine
    sits between its callers and the collaborators it only calls: the
    embedding cache ([src/services/embedding_cache.py]) and
    [initialize_pinecone] ([src/config/pinecone_config.py]), whose sources
    are not part of the file, the Pinecone index, [uuid], [hashlib], [os]
    and [pickle].  The collaborators are a record of state transformers
    over an abstract world; every call the engine makes is also appended to
    a trace, so that "no upsert was issued" is a statement about the trace.
    The dicts the callers pass are objects in a heap, since the engine
    writes into them.

    Python strings are byte strings in UTF-8 ([key_str.encode('utf-8')] is
    then the identity, and the byte-wise lexicographic order of
    [String.compare] is the code-point order Python compares [str] with).
    Console output ([print]) is not modelled, nor are [_load_cache] and
    [_save_cache], which nothing in the engine calls. *)

From Stdlib Require Import ZArith String Ascii List.
From stdpp Require Import base option list gmap strings pretty sorting.

(** ** Python values and dicts *)

(** [Any]: what the engine needs of a metadata or filter value.  It takes
    [repr] of it (through [str] of a list) and stores [str] objects in
    it. *)
Class PyAny (V : Type) := {
  py_repr : V → string;
  py_of_str : string → V
}.

(** A [Dict[str, Any]]: the items in insertion order.  The keys of a dict
    are pairwise distinct, [dict_wf]. *)
Definition dict (V : Type) : Type := list (string * V).

Definition dict_wf {V} (d : dict V) : Prop := NoDup d.*1.

Definition dict_items {V} (d : dict V) : list (string * V) := d.

(** [bool(d)]: a dict is true when it is not empty. *)
Definition dict_bool {V} (d : dict V) : bool :=
  match d with [] => false | _ :: _ => true end.

(** [d[k]], absent keys give [None]. *)
Fixpoint dict_get {V} (k : string) (d : dict V) : option V :=
  match d with
  | [] => None
  | (k', v') :: d' => if decide (k' = k) then Some v' else dict_get k d'
  end.

(** [d[k] = v]: an existing key keeps its position, a new one goes last. *)
Fixpoint dict_set {V} (k : string) (v : V) (d : dict V) : dict V :=
  match d with
  | [] => [(k, v)]
  | (k', v') :: d' =>
      if decide (k' = k) then (k', v) :: d' else (k', v') :: dict_set k v d'
  end.

(** ** [sorted] on the items of a dict *)

(** [a < b] on [(key, value)] tuples.  Python compares the first
    components that differ; two items of one dict always differ in their
    key, so the comparison is the one of the keys. *)
Definition item_lt {V} (a b : string * V) : bool := String.ltb a.1 b.1.

(** [sorted] is stable: an element goes in front of the first element of
    the sorted rest that is not smaller than it. *)
Fixpoint sorted_insert {V} (x : string * V) (s : list (string * V))
  : list (string * V) :=
  match s with
  | [] => [x]
  | y :: s' => if item_lt y x then y :: sorted_insert x s' else x :: y :: s'
  end.

Fixpoint sorted {V} (l : list (string * V)) : list (string * V) :=
  match l with
  | [] => []
  | x :: l' => sorted_insert x (sorted l')
  end.

(** ** [str] of a list of tuples *)

Fixpoint str_join (sep : string) (l : list string) : string :=
  match l with
  | [] => EmptyString
  | [s] => s
  | s :: l' => s +:+ sep +:+ str_join sep l'
  end.

Section Fingerprint.
Context {V : Type} `{!PyAny V}.

(** [hashlib.md5(s.encode('utf-8')).hexdigest()]. *)
Variable md5_hexdigest : string → string.

Definition repr_item (kv : string * V) : string :=
  "(" +:+ py_repr (py_of_str kv.1) +:+ ", " +:+ py_repr kv.2 +:+ ")".

Definition str_list (l : list (string * V)) : string :=
  "[" +:+ str_join ", " (repr_item <$> l) +:+ "]".

(** [str(sorted(filter_criteria.items())) if filter_criteria else "None"] *)
Definition filter_str (filter_criteria : option (dict V)) : string :=
  match filter_criteria with
  | Some d => if dict_bool d then str_list (sorted (dict_items d)) else "None"
  | None => "None"
  end.

Definition _generate_retrieval_key (query : string) (top_k : Z)
    (filter_criteria : option (dict V)) : string :=
  md5_hexdigest
    (query +:+ "|" +:+ pretty top_k +:+ "|" +:+ filter_str filter_criteria).
End Fingerprint.

(** ** Exceptions and results *)

Inductive exception : Type :=
| ValueError (msg : string)
| IndexError (msg : string)
| Exception (msg : string).

(** What a Python call gives back: a value, or a raised exception. *)
Inductive result (A : Type) : Type :=
| Ok (a : A)
| Raise (e : exception).
Arguments Ok {A} a.
Arguments Raise {A} e.

(** ** Data exchanged with the index *)

(** A reference to a dict object of the caller. *)
Definition ref : Type := nat.

Section Data.
Context {V Emb Score : Type}.

(** One element of [upsert(vectors=[...])], as the index receives it. *)
Record vector : Type := Vector {
  v_id : string;
  v_values : Emb;
  v_metadata : dict V
}.

(** The same element inside the engine: ["metadata"] is the caller's
    dict object itself, not a copy. *)
Record vector_ref : Type := VectorRef {
  vr_id : string;
  vr_values : Emb;
  vr_metadata : ref
}.

(** One element of [results["matches"]]. *)
Record scored_vector : Type := ScoredVector {
  m_id : string;
  m_score : Score;
  m_values : Emb;
  m_metadata : dict V
}.

(** One element of the list [get_retrivals] returns. *)
Record recommendation : Type := Recommendation {
  r_id : string;
  r_score : Score;
  r_metadata : dict V
}.
End Data.
Arguments vector : clear implicits.
Arguments vector_ref : clear implicits.
Arguments scored_vector : clear implicits.
Arguments recommendation : clear implicits.

(** The retrieval cache: fingerprint to result list. *)
Abbreviation rcache V Score := (gmap string (list (recommendation V Score))).

(** ** The collaborators *)

(** Each call takes the world to a new world and returns or raises. *)
Record Collaborators (V Emb Score W : Type) : Type := {
  (** [hashlib.md5(s.encode('utf-8')).hexdigest()] *)
  md5_hexdigest : string → string;
  (** [os.makedirs(cache_dir, exist_ok=True)] *)
  os_makedirs : string → W → result unit * W;
  (** [EmbeddingCache(cache_dir=cache_dir)] *)
  EmbeddingCache : string → W → result unit * W;
  (** [initialize_pinecone(index_name)] *)
  initialize_pinecone : string → W → result unit * W;
  (** [Pinecone(api_key=os.getenv("PINECONE_API_KEY")).Index(index_name)] *)
  Pinecone_Index : string → W → result unit * W;
  (** [self.embedding_cache.get_embedding(content)] *)
  get_embedding : string → W → result Emb * W;
  (** [str(uuid.uuid4())] *)
  uuid4 : W → string * W;
  (** [self.index.upsert(vectors=...)] *)
  index_upsert : list (vector V Emb) → W → result unit * W;
  (** [self.index.query(vector=..., top_k=..., include_metadata=...,
      filter=...)["matches"]] *)
  index_query : Emb → Z → bool → option (dict V) → W
                → result (list (scored_vector V Emb Score)) * W;
  (** [self.index.delete(ids=...)] *)
  index_delete : list string → W → result unit * W;
  (** [os.path.exists(file)] *)
  os_path_exists : string → W → result bool * W;
  (** [with open(file, "rb") as f: pickle.load(f)] *)
  pickle_load : string → W → result (rcache V Score) * W;
  (** [with open(file, "wb") as f: pickle.dump(cache, f)] *)
  pickle_dump : string → rcache V Score → W → result unit * W
}.
Arguments md5_hexdigest {V Emb Score W} _.
Arguments os_makedirs {V Emb Score W} _.
Arguments EmbeddingCache {V Emb Score W} _.
Arguments initialize_pinecone {V Emb Score W} _.
Arguments Pinecone_Index {V Emb Score W} _.
Arguments get_embedding {V Emb Score W} _.
Arguments uuid4 {V Emb Score W} _.
Arguments index_upsert {V Emb Score W} _.
Arguments index_query {V Emb Score W} _.
Arguments index_delete {V Emb Score W} _.
Arguments os_path_exists {V Emb Score W} _.
Arguments pickle_load {V Emb Score W} _.
Arguments pickle_dump {V Emb Score W} _.

(** The calls the engine makes, with their arguments; a call of [uuid4]
    has none and is logged with its result. *)
Inductive event (V Emb Score : Type) : Type :=
| EvMakedirs (cache_dir : string)
| EvEmbeddingCache (cache_dir : string)
| EvInitializePinecone (index_name : string)
| EvPineconeIndex (index_name : string)
| EvGetEmbedding (content : string)
| EvUuid4 (item_id : string)
| EvUpsert (vectors : list (vector V Emb))
| EvQuery (v : Emb) (top_k : Z) (include_metadata : bool)
          (filter : option (dict V))
| EvDelete (ids : list string)
| EvPathExists (file : string)
| EvPickleLoad (file : string)
| EvPickleDump (file : string) (cache : rcache V Score).
Arguments EvMakedirs {V Emb Score}.
Arguments EvEmbeddingCache {V Emb Score}.
Arguments EvInitializePinecone {V Emb Score}.
Arguments EvPineconeIndex {V Emb Score}.
Arguments EvGetEmbedding {V Emb Score}.
Arguments EvUuid4 {V Emb Score}.
Arguments EvUpsert {V Emb Score}.
Arguments EvQuery {V Emb Score}.
Arguments EvDelete {V Emb Score}.
Arguments EvPathExists {V Emb Score}.
Arguments EvPickleLoad {V Emb Score}.
Arguments EvPickleDump {V Emb Score}.

(** ** The engine object and the program state *)

Record RetrivalEngine (V Score : Type) : Type := {
  index_name : string;
  cache_dir : string;
  retrieval_cache_file : string;
  retrieval_cache : rcache V Score
}.
Arguments index_name {V Score} _.
Arguments cache_dir {V Score} _.
Arguments retrieval_cache_file {V Score} _.
Arguments retrieval_cache {V Score} _.

(** [self], the dict objects of the callers, the world of the
    collaborators, and the calls made so far. *)
Record state (V Emb Score W : Type) : Type := {
  self : RetrivalEngine V Score;
  heap : gmap ref (dict V);
  world : W;
  trace : list (event V Emb Score)
}.
Arguments self {V Emb Score W} _.
Arguments heap {V Emb Score W} _.
Arguments world {V Emb Score W} _.
Arguments trace {V Emb Score W} _.

(** The dict a reference points to; callers pass live references, one
    the heap does not hold reads as the empty dict. *)
Definition heap_get {V} (h : gmap ref (dict V)) (r : ref) : dict V :=
  default [] (h !! r).

(** [os.path.join(a, b)] for a relative [b] on POSIX. *)
Fixpoint ends_with_slash (a : string) : bool :=
  match a with
  | EmptyString => false
  | String c EmptyString => if decide (c = "/"%char) then true else false
  | String _ a' => ends_with_slash a'
  end.

Definition os_path_join (a b : string) : string :=
  match a with
  | EmptyString => b
  | _ => if ends_with_slash a then a +:+ b else a +:+ "/" +:+ b
  end.

Fixpoint zip3 {A B C} (la : list A) (lb : list B) (lc : list C)
  : list (A * B * C) :=
  match la, lb, lc with
  | a :: la', b :: lb', c :: lc' => (a, b, c) :: zip3 la' lb' lc'
  | _, _, _ => []
  end.

(** ** The engine *)

Section Engine.
Context {V Emb Score W : Type} `{!PyAny V}.
Variable ext : Collaborators V Emb Score W.

Abbreviation State := (state V Emb Score W).
Abbreviation Engine := (RetrivalEngine V Score).
Abbreviation Cache := (rcache V Score).

(** A method body: it runs on a state and returns or raises; what it
    did to the state before raising stays done. *)
Definition M (A : Type) : Type := State → result A * State.

#[local] Instance M_ret : MRet M := λ A a s, (Ok a, s).
#[local] Instance M_bind : MBind M := λ A B k m s,
  match m s with
  | (Ok a, s') => k a s'
  | (Raise e, s') => (Raise e, s')
  end.

Definition raise {A} (e : exception) : M A := λ s, (Raise e, s).

(** [try: m  except Exception as e: h e] *)
Definition try_except {A} (m : M A) (h : exception → M A) : M A := λ s,
  match m s with
  | (Ok a, s') => (Ok a, s')
  | (Raise e, s') => h e s'
  end.

(** A call to a collaborator: logged, then answered by the world. *)
Definition call {A} (ev : event V Emb Score) (f : W → result A * W)
  : M A := λ s,
  let '(r, w) := f (world s) in
  (r, {| self := self s; heap := heap s; world := w;
         trace := trace s ++ [ev] |}).

(** [str(uuid.uuid4())], logged with the id it gave. *)
Definition new_uuid : M string := λ s,
  let '(u, w) := uuid4 ext (world s) in
  (Ok u, {| self := self s; heap := heap s; world := w;
            trace := trace s ++ [EvUuid4 u] |}).

Definition get_self : M Engine := λ s, (Ok (self s), s).

Definition set_self (e : Engine) : M unit := λ s,
  (Ok (), {| self := e; heap := heap s; world := world s;
             trace := trace s |}).

Definition set_index_name (x : string) : M unit :=
  e ← get_self;
  set_self {| index_name := x; cache_dir := cache_dir e;
              retrieval_cache_file := retrieval_cache_file e;
              retrieval_cache := retrieval_cache e |}.

Definition set_cache_dir (x : string) : M unit :=
  e ← get_self;
  set_self {| index_name := index_name e; cache_dir := x;
              retrieval_cache_file := retrieval_cache_file e;
              retrieval_cache := retrieval_cache e |}.

Definition set_retrieval_cache_file (x : string) : M unit :=
  e ← get_self;
  set_self {| index_name := index_name e; cache_dir := cache_dir e;
              retrieval_cache_file := x;
              retrieval_cache := retrieval_cache e |}.

Definition set_retrieval_cache (x : Cache) : M unit :=
  e ← get_self;
  set_self {| index_name := index_name e; cache_dir := cache_dir e;
              retrieval_cache_file := retrieval_cache_file e;
              retrieval_cache := x |}.

(** [metadata[k] = v] on the dict object [metadata] refers to. *)
Definition setitem (metadata : ref) (k : string) (v : V) : M unit := λ s,
  (Ok (), {| self := self s;
             heap := <[metadata := dict_set k v (heap_get (heap s) metadata)]>
                       (heap s);
             world := world s; trace := trace s |}).

(** [item_types[i]] *)
Definition getitem {A} (l : list A) (i : nat) : M A :=
  match l !! i with
  | Some x => mret x
  | None => raise (IndexError "list index out of range")
  end.

(** What the index receives for a vector: the dict as it is now. *)
Definition deref (h : gmap ref (dict V)) (v : vector_ref Emb)
  : vector V Emb :=
  {| v_id := vr_id v; v_values := vr_values v;
     v_metadata := heap_get h (vr_metadata v) |}.

Definition upsert (vectors : list (vector_ref Emb)) : M unit := λ s,
  let vs := deref (heap s) <$> vectors in
  call (EvUpsert vs) (index_upsert ext vs) s.

(** *** [_load_retrieval_cache], [_save_retrieval_cache] *)

Definition _load_retrieval_cache : M Cache :=
  try_except
    (e ← get_self;
     found ← call (EvPathExists (retrieval_cache_file e))
                  (os_path_exists ext (retrieval_cache_file e));
     if (found : bool) then
       call (EvPickleLoad (retrieval_cache_file e))
            (pickle_load ext (retrieval_cache_file e))
     else mret ∅)
    (λ _, mret ∅).

Definition _save_retrieval_cache : M unit :=
  try_except
    (e ← get_self;
     call (EvPickleDump (retrieval_cache_file e) (retrieval_cache e))
          (pickle_dump ext (retrieval_cache_file e) (retrieval_cache e)))
    (λ _, mret ()).

(** *** [__init__] *)

(** The two [try: ... except Exception as e: print(...); raise] blocks
    re-raise what they catch. *)
Definition __init__ (index_name cache_dir : string) : M unit :=
  set_index_name index_name;;
  set_cache_dir cache_dir;;
  call (EvMakedirs cache_dir) (os_makedirs ext cache_dir);;
  call (EvEmbeddingCache cache_dir) (EmbeddingCache ext cache_dir);;
  call (EvInitializePinecone index_name) (initialize_pinecone ext index_name);;
  call (EvPineconeIndex index_name) (Pinecone_Index ext index_name);;
  set_retrieval_cache_file (os_path_join cache_dir "retrieval_cache.pkl");;
  cache ← _load_retrieval_cache;
  set_retrieval_cache cache.

(** *** [add_item] *)

Definition add_item (content : string) (metadata : ref)
    (item_type : string) : M string :=
  setitem metadata "content" (py_of_str content);;
  setitem metadata "item_type" (py_of_str item_type);;
  embedding ← call (EvGetEmbedding content) (get_embedding ext content);
  item_id ← new_uuid;
  upsert [ {| vr_id := item_id; vr_values := embedding;
              vr_metadata := metadata |} ];;
  set_retrieval_cache ∅;;
  _save_retrieval_cache;;
  mret item_id.

(** *** [bulk_add_items] *)

(** [for content in contents: embeddings.append(get_embedding(content))] *)
Fixpoint embeddings_loop (embeddings : list Emb) (contents : list string)
  : M (list Emb) :=
  match contents with
  | [] => mret embeddings
  | content :: contents' =>
      embedding ← call (EvGetEmbedding content) (get_embedding ext content);
      embeddings_loop (embeddings ++ [embedding]) contents'
  end.

(** [for i, (content, metadata, embedding) in enumerate(zip(...))] *)
Fixpoint vectors_loop (vectors : list (vector_ref Emb)) (i : nat)
    (zipped : list (string * ref * Emb)) (item_types : list string)
  : M (list (vector_ref Emb)) :=
  match zipped with
  | [] => mret vectors
  | (content, metadata, embedding) :: zipped' =>
      setitem metadata "content" (py_of_str content);;
      item_type ← getitem item_types i;
      setitem metadata "item_type" (py_of_str item_type);;
      vectors_loop
        (vectors ++ [ {| vr_id := "item_" +:+ pretty i;
                         vr_values := embedding;
                         vr_metadata := metadata |} ])
        (S i) zipped' item_types
  end.

(** The [try: ... except Exception as e: print(...); raise] around the
    body re-raises what it catches. *)
Definition bulk_add_items (contents : list string) (metadatas : list ref)
    (item_types : list string) : M (list string) :=
  if negb (bool_decide (length contents = length metadatas)
           && bool_decide (length metadatas = length item_types))
  then raise (ValueError
         "Contents, metadatas, and item_types must have the same length")
  else
    embeddings ← embeddings_loop [] contents;
    vectors ← vectors_loop [] 0 (zip3 contents metadatas embeddings)
                           item_types;
    upsert vectors;;
    set_retrieval_cache ∅;;
    _save_retrieval_cache;;
    mret (vr_id <$> vectors).

(** *** [get_retrivals] *)

Definition format_match (m : scored_vector V Emb Score)
  : recommendation V Score :=
  {| r_id := m_id m; r_score := m_score m; r_metadata := m_metadata m |}.

(** [for match in results["matches"]: recommendations.append({...})] *)
Fixpoint format_loop (recommendations : list (recommendation V Score))
    (matches : list (scored_vector V Emb Score))
  : list (recommendation V Score) :=
  match matches with
  | [] => recommendations
  | m :: matches' => format_loop (recommendations ++ [format_match m]) matches'
  end.

Definition get_retrivals (query : string) (top_k : Z)
    (filter_criteria : option (dict V))
  : M (list (recommendation V Score)) :=
  let cache_key :=
    _generate_retrieval_key (md5_hexdigest ext) query top_k filter_criteria in
  e ← get_self;
  match retrieval_cache e !! cache_key with
  | Some cached => mret cached
  | None =>
      query_embedding ← call (EvGetEmbedding query) (get_embedding ext query);
      matches ← call (EvQuery query_embedding top_k true filter_criteria)
                     (index_query ext query_embedding top_k true
                                  filter_criteria);
      let recommendations := format_loop [] matches in
      e' ← get_self;
      set_retrieval_cache (<[cache_key := recommendations]> (retrieval_cache e'));;
      _save_retrieval_cache;;
      mret recommendations
  end.

(** The default arguments [top_k=5], [filter_criteria=None]. *)
Definition get_retrivals_default (query : string)
  : M (list (recommendation V Score)) :=
  get_retrivals query 5 None.

(** *** [delete_item], [clear_retrieval_cache] *)

Definition delete_item (item_id : string) : M unit :=
  call (EvDelete [item_id]) (index_delete ext [item_id]);;
  set_retrieval_cache ∅;;
  _save_retrieval_cache.

Definition clear_retrieval_cache : M unit :=
  set_retrieval_cache ∅;;
  _save_retrieval_cache.
End Engine.

(** ** Sequences of operations *)

(** A call of one of the public methods. *)
Inductive operation (V : Type) : Type :=
| AddItem (content : string) (metadata : ref) (item_type : string)
| BulkAddItems (contents : list string) (metadatas : list ref)
               (item_types : list string)
| GetRetrivals (query : string) (top_k : Z) (filter_criteria : option (dict V))
| DeleteItem (item_id : string)
| ClearRetrievalCache.
Arguments AddItem {V}.
Arguments BulkAddItems {V}.
Arguments GetRetrivals {V}.
Arguments DeleteItem {V}.
Arguments ClearRetrievalCache {V}.

(** What a call returns. *)
Inductive returned (V Score : Type) : Type :=
| RId (item_id : string)
| RIds (item_ids : list string)
| RRecommendations (l : list (recommendation V Score))
| RNone.
Arguments RId {V Score}.
Arguments RIds {V Score}.
Arguments RRecommendations {V Score}.
Arguments RNone {V Score}.

(** The calls that modify the index. *)
Definition is_mutation {V} (o : operation V) : bool :=
  match o with
  | AddItem _ _ _ | BulkAddItems _ _ _ | DeleteItem _ => true
  | GetRetrivals _ _ _ | ClearRetrievalCache => false
  end.

Section Run.
Context {V Emb Score W : Type} `{!PyAny V}.
Variable ext : Collaborators V Emb Score W.

Definition fmap_result {A B} (f : A → B) (r : result A) : result B :=
  match r with Ok a => Ok (f a) | Raise e => Raise e end.

Definition run_op (o : operation V) (s : state V Emb Score W)
  : result (returned V Score) * state V Emb Score W :=
  match o with
  | AddItem content metadata item_type =>
      let '(r, s') := add_item ext content metadata item_type s in
      (fmap_result RId r, s')
  | BulkAddItems contents metadatas item_types =>
      let '(r, s') := bulk_add_items ext contents metadatas item_types s in
      (fmap_result RIds r, s')
  | GetRetrivals query top_k filter_criteria =>
      let '(r, s') := get_retrivals ext query top_k filter_criteria s in
      (fmap_result RRecommendations r, s')
  | DeleteItem item_id =>
      let '(r, s') := delete_item ext item_id s in
      (fmap_result (λ _, RNone) r, s')
  | ClearRetrievalCache =>
      let '(r, s') := clear_retrieval_cache ext s in
      (fmap_result (λ _, RNone) r, s')
  end.

(** The caller goes on after an exception: each call runs on the state
    the previous one left. *)
Fixpoint run_ops (os : list (operation V)) (s : state V Emb Score W)
  : state V Emb Score W :=
  match os with
  | [] => s
  | o :: os' => run_ops os' (run_op o s).2
  end.
End Run.

(** ** Vocabulary of the properties *)

Section Vocabulary.
Context {V Emb Score W : Type} `{!PyAny V}.

(** A metadata dict once [content] and [item_type] are written into it. *)
Definition merged (d : dict V) (content item_type : string) : dict V :=
  dict_set "item_type" (py_of_str item_type)
    (dict_set "content" (py_of_str content) d).

(** The heap once they are written into the dict [metadata] refers to. *)
Definition merge_into (h : gmap ref (dict V)) (metadata : ref)
    (content item_type : string) : gmap ref (dict V) :=
  <[metadata := merged (heap_get h metadata) content item_type]> h.

(** The ids [uuid4] gave in the calls of a trace, oldest first. *)
Fixpoint uuids_of (t : list (event V Emb Score)) : list string :=
  match t with
  | [] => []
  | EvUuid4 u :: t' => u :: uuids_of t'
  | _ :: t' => uuids_of t'
  end.

(** ["item_0"], ..., ["item_{n-1}"] *)
Definition item_ids (n : nat) : list string :=
  (λ i : nat, "item_" +:+ pretty i) <$> seq 0 n.

(** The heap once a batch is written into the dicts, first item first. *)
Fixpoint merge_all (h : gmap ref (dict V)) (contents : list string)
    (metadatas : list ref) (item_types : list string) : gmap ref (dict V) :=
  match contents, metadatas, item_types with
  | c :: contents', m :: metadatas', t :: item_types' =>
      merge_all (merge_into h m c t) contents' metadatas' item_types'
  | _, _, _ => h
  end.

(** The vectors of a batch, numbered from [i], as the index receives them
    when the dicts are as in [h]. *)
Fixpoint batch_vectors (h : gmap ref (dict V)) (i : nat)
    (zipped : list (string * ref * Emb)) : list (vector V Emb) :=
  match zipped with
  | [] => []
  | (_, metadata, embedding) :: zipped' =>
      {| v_id := "item_" +:+ pretty i; v_values := embedding;
         v_metadata := heap_get h metadata |}
      :: batch_vectors h (S i) zipped'
  end.

(** The engine with another retrieval cache. *)
Definition with_cache (e : RetrivalEngine V Score) (cache : rcache V Score)
  : RetrivalEngine V Score :=
  {| index_name := index_name e; cache_dir := cache_dir e;
     retrieval_cache_file := retrieval_cache_file e;
     retrieval_cache := cache |}.

(** The same collaborators, with a file system that answers
    [pickle.dump] by [dump]. *)
Definition with_pickle_dump (ext : Collaborators V Emb Score W)
    (dump : string → rcache V Score → W → result unit * W)
  : Collaborators V Emb Score W :=
  {| md5_hexdigest := md5_hexdigest ext;
     os_makedirs := os_makedirs ext;
     EmbeddingCache := EmbeddingCache ext;
     initialize_pinecone := initialize_pinecone ext;
     Pinecone_Index := Pinecone_Index ext;
     get_embedding := get_embedding ext;
     uuid4 := uuid4 ext;
     index_upsert := index_upsert ext;
     index_query := index_query ext;
     index_delete := index_delete ext;
     os_path_exists := os_path_exists ext;
     pickle_load := pickle_load ext;
     pickle_dump := dump |}.

(** What [_load_retrieval_cache] reads from [file] in the world [w]: the
    pickled cache when the file is there and loads, and the empty cache
    when the file is missing or anything raises. *)
Definition loaded_cache (ext : Collaborators V Emb Score W) (file : string)
    (w : W) : rcache V Score :=
  match os_path_exists ext file w with
  | (Ok true, w') =>
      match pickle_load ext file w' with
      | (Ok cache, _) => cache
      | (Raise _, _) => ∅
      end
  | (Ok false, _) | (Raise _, _) => ∅
  end.

(** Two outcomes that differ at most in the world. *)
Definition same_but_world {A} (a b : result A * state V Emb Score W) : Prop :=
  a.1 = b.1 ∧ self a.2 = self b.2 ∧ heap a.2 = heap b.2
  ∧ trace a.2 = trace b.2.

(** The fingerprint [key] holds [recs] because a [get_retrivals] call
    among [os], run from [s], missed the cache, queried the index and
    stored what it got. *)
Definition stored_by (ext : Collaborators V Emb Score W)
    (os : list (operation V)) (s : state V Emb Score W)
    (key : string) (recs : list (recommendation V Score)) : Prop :=
  ∃ before query top_k filter_criteria after,
    os = before ++ GetRetrivals query top_k filter_criteria :: after
    ∧ key = _generate_retrieval_key (md5_hexdigest ext) query top_k
                                    filter_criteria
    ∧ retrieval_cache (self (run_ops ext before s)) !! key = None
    ∧ (get_retrivals ext query top_k filter_criteria
                     (run_ops ext before s)).1 = Ok recs.
End Vocabulary.

(** ** MD5

    The digest [hashlib.md5] computes (RFC 1321), on 32-bit words as [Z]
    with the wrap-around written out.  The theorems below hold for any
    digest function; this one is what the worked examples run. *)

Module MD5.
#[local] Open Scope Z_scope.

Definition add32 (x y : Z) : Z := (x + y) mod 2 ^ 32.

Definition not32 (x : Z) : Z := Z.lxor x 0xffffffff.

Definition rotl32 (x c : Z) : Z :=
  Z.lor (Z.shiftl x c mod 2 ^ 32) (Z.shiftr x (32 - c)).

Definition shifts : list Z :=
  [ 7; 12; 17; 22;  7; 12; 17; 22;  7; 12; 17; 22;  7; 12; 17; 22;
    5;  9; 14; 20;  5;  9; 14; 20;  5;  9; 14; 20;  5;  9; 14; 20;
    4; 11; 16; 23;  4; 11; 16; 23;  4; 11; 16; 23;  4; 11; 16; 23;
    6; 10; 15; 21;  6; 10; 15; 21;  6; 10; 15; 21;  6; 10; 15; 21 ].

(** [floor (2^32 * abs (sin (i + 1)))] *)
Definition sines : list Z :=
  [ 0xd76aa478; 0xe8c7b756; 0x242070db; 0xc1bdceee;
    0xf57c0faf; 0x4787c62a; 0xa8304613; 0xfd469501;
    0x698098d8; 0x8b44f7af; 0xffff5bb1; 0x895cd7be;
    0x6b901122; 0xfd987193; 0xa679438e; 0x49b40821;
    0xf61e2562; 0xc040b340; 0x265e5a51; 0xe9b6c7aa;
    0xd62f105d; 0x02441453; 0xd8a1e681; 0xe7d3fbc8;
    0x21e1cde6; 0xc33707d6; 0xf4d50d87; 0x455a14ed;
    0xa9e3e905; 0xfcefa3f8; 0x676f02d9; 0x8d2a4c8a;
    0xfffa3942; 0x8771f681; 0x6d9d6122; 0xfde5380c;
    0xa4beea44; 0x4bdecfa9; 0xf6bb4b60; 0xbebfbc70;
    0x289b7ec6; 0xeaa127fa; 0xd4ef3085; 0x04881d05;
    0xd9d4d039; 0xe6db99e5; 0x1fa27cf8; 0xc4ac5665;
    0xf4292244; 0x432aff97; 0xab9423a7; 0xfc93a039;
    0x655b59c3; 0x8f0ccc92; 0xffeff47d; 0x85845dd1;
    0x6fa87e4f; 0xfe2ce6e0; 0xa3014314; 0x4e0811a1;
    0xf7537e82; 0xbd3af235; 0x2ad7d2bb; 0xeb86d391 ].

Definition bytes_of_string (s : string) : list Z :=
  (λ a, Z.of_N (N_of_ascii a)) <$> list_ascii_of_string s.

(** The [n] low bytes of [x], least significant first. *)
Fixpoint le_bytes (n : nat) (x : Z) : list Z :=
  match n with
  | O => []
  | S n' => x mod 256 :: le_bytes n' (x / 256)
  end.

Fixpoint of_le_bytes (bs : list Z) : Z :=
  match bs with
  | [] => 0
  | b :: bs' => b + 256 * of_le_bytes bs'
  end.

(** The message, a [1] bit, zeros up to 56 modulo 64, and the length in
    bits on 64 bits. *)
Definition pad (msg : list Z) : list Z :=
  let len := Z.of_nat (length msg) in
  msg ++ [0x80] ++ replicate (Z.to_nat ((55 - len) mod 64)) 0
      ++ le_bytes 8 ((8 * len) mod 2 ^ 64).

Fixpoint chunks {A} (fuel size : nat) (l : list A) : list (list A) :=
  match fuel, l with
  | O, _ | _, [] => []
  | S fuel', _ => take size l :: chunks fuel' size (drop size l)
  end.

Definition words_of_block (block : list Z) : list Z :=
  of_le_bytes <$> chunks 16 4 block.

Definition step (m : list Z) (st : Z * Z * Z * Z) (i : nat)
  : Z * Z * Z * Z :=
  let '(a, b, c, d) := st in
  let '(f, g) :=
    if (i <? 16)%nat then (Z.lor (Z.land b c) (Z.land (not32 b) d), i)
    else if (i <? 32)%nat then
      (Z.lor (Z.land d b) (Z.land (not32 d) c), ((5 * i + 1) mod 16)%nat)
    else if (i <? 48)%nat then
      (Z.lxor (Z.lxor b c) d, ((3 * i + 5) mod 16)%nat)
    else (Z.lxor c (Z.lor b (not32 d)), ((7 * i) mod 16)%nat) in
  let f' := add32 (add32 (add32 f a) (nth i sines 0)) (nth g m 0) in
  (d, add32 b (rotl32 f' (nth i shifts 0)), b, c).

Definition process (st : Z * Z * Z * Z) (block : list Z) : Z * Z * Z * Z :=
  let '(a0, b0, c0, d0) := st in
  let '(a, b, c, d) := fold_left (step (words_of_block block)) (seq 0 64) st in
  (add32 a0 a, add32 b0 b, add32 c0 c, add32 d0 d).

Definition digest (msg : list Z) : list Z :=
  let padded := pad msg in
  let '(a, b, c, d) :=
    fold_left process (chunks (length padded) 64 padded)
              (0x67452301, 0xefcdab89, 0x98badcfe, 0x10325476) in
  le_bytes 4 a ++ le_bytes 4 b ++ le_bytes 4 c ++ le_bytes 4 d.

Definition hex_digit (x : Z) : ascii :=
  nth (Z.to_nat x) (list_ascii_of_string "0123456789abcdef") "0"%char.

Fixpoint hex (bs : list Z) : string :=
  match bs with
  | [] => EmptyString
  | b :: bs' => String (hex_digit (b / 16)) (String (hex_digit (b mod 16)) (hex bs'))
  end.

Definition hexdigest (s : string) : string := hex (digest (bytes_of_string s)).
End MD5.

(** ** A concrete instance

    Scalar metadata values with Python's [repr], and a small world: an
    index held in a list, a counter for the ids, files that can be missing
    or damaged, a disk that can refuse writes and an index that can be
    down.  The worked examples and the witnesses run on it. *)

Module Demo.

Inductive scalar : Type :=
| SNone
| SBool (b : bool)
| SInt (z : Z)
| SStr (s : string).

#[global] Instance scalar_eq_dec : EqDecision scalar.
Proof. solve_decision. Defined.

Fixpoint str_contains (c : ascii) (s : string) : bool :=
  match s with
  | EmptyString => false
  | String c' s' => if decide (c' = c) then true else str_contains c s'
  end.

Definition squote : ascii := "'"%char.
Definition dquote : ascii := ascii_of_nat 34.
Definition backslash : ascii := "\"%char.

(** [repr] of a [str] quotes with ['], unless the string has a ['] and
    no double quote. *)
Definition repr_quote (s : string) : ascii :=
  if str_contains squote s && negb (str_contains dquote s)
  then dquote else squote.

Definition hex2 (n : N) : string :=
  String (MD5.hex_digit (Z.of_N n / 16))
         (String (MD5.hex_digit (Z.of_N n mod 16)) EmptyString).

(** One character of [repr]: the quote and the backslash are escaped,
    control characters are written [\t], [\n], [\r] or [\xNN].  The bytes
    of a code point above 127 are kept (Python keeps the printable ones). *)
Definition repr_char (q c : ascii) : string :=
  let n := N_of_ascii c in
  if decide (c = q ∨ c = backslash) then String backslash (String c EmptyString)
  else if decide (n = 9%N) then "\t"
  else if decide (n = 10%N) then "\n"
  else if decide (n = 13%N) then "\r"
  else if decide (n < 32 ∨ n = 127)%N then "\x" +:+ hex2 n
  else String c EmptyString.

Fixpoint repr_chars (q : ascii) (s : string) : string :=
  match s with
  | EmptyString => EmptyString
  | String c s' => repr_char q c +:+ repr_chars q s'
  end.

Definition repr_str (s : string) : string :=
  let q := repr_quote s in
  String q (repr_chars q s +:+ String q EmptyString).

Definition repr_scalar (v : scalar) : string :=
  match v with
  | SNone => "None"
  | SBool true => "True"
  | SBool false => "False"
  | SInt z => pretty z
  | SStr s => repr_str s
  end.

#[global] Instance scalar_any : PyAny scalar :=
  {| py_repr := repr_scalar; py_of_str := SStr |}.

(** The world. *)
Record demo_world : Type := {
  index_store : list (vector scalar (list Z));
  uuids_issued : nat;
  (** a file holds a pickled cache, or bytes that do not unpickle *)
  files : gmap string (option (rcache scalar Z));
  disk_read_only : bool;
  index_down : bool
}.

Definition embed (content : string) : list Z :=
  [Z.of_nat (String.length content);
   foldr Z.add 0%Z (MD5.bytes_of_string content)].

Fixpoint zeros (n : nat) : string :=
  match n with
  | O => EmptyString
  | S n' => String "0"%char (zeros n')
  end.

Definition zero_pad (width : nat) (s : string) : string :=
  zeros (width - String.length s) +:+ s.

Definition demo_uuid (n : nat) : string :=
  "00000000-0000-4000-8000-" +:+ zero_pad 12 (pretty n).

Fixpoint store_vector (v : vector scalar (list Z))
    (store : list (vector scalar (list Z))) : list (vector scalar (list Z)) :=
  match store with
  | [] => [v]
  | v' :: store' =>
      if decide (v_id v' = v_id v) then v :: store'
      else v' :: store_vector v store'
  end.

Definition passes (criteria : option (dict scalar))
    (v : vector scalar (list Z)) : bool :=
  match criteria with
  | None => true
  | Some d =>
      forallb (λ kv, bool_decide (dict_get kv.1 (v_metadata v) = Some kv.2)) d
  end.

Definition score_of (q : list Z) (v : vector scalar (list Z)) : Z :=
  if decide (v_values v = q) then 1%Z else 0%Z.

Definition to_match (q : list Z) (v : vector scalar (list Z))
  : scored_vector scalar (list Z) Z :=
  {| m_id := v_id v; m_score := score_of q v; m_values := [];
     m_metadata := v_metadata v |}.

Definition demo_query (q : list Z) (top_k : Z)
    (criteria : option (dict scalar)) (store : list (vector scalar (list Z)))
  : list (scored_vector scalar (list Z) Z) :=
  let candidates := filter (λ v, passes criteria v = true) store in
  let exact := filter (λ v, v_values v = q) candidates in
  let others := filter (λ v, v_values v ≠ q) candidates in
  take (Z.to_nat top_k) (to_match q <$> (exact ++ others)).

Definition with_index (w : demo_world)
    (store : list (vector scalar (list Z))) : demo_world :=
  {| index_store := store; uuids_issued := uuids_issued w; files := files w;
     disk_read_only := disk_read_only w; index_down := index_down w |}.

Definition unavailable : exception := Exception "index unavailable".

Definition demo : Collaborators scalar (list Z) Z demo_world := {|
  md5_hexdigest := MD5.hexdigest;
  os_makedirs := λ _ w, (Ok (), w);
  EmbeddingCache := λ _ w, (Ok (), w);
  initialize_pinecone := λ _ w,
    if index_down w then (Raise unavailable, w) else (Ok (), w);
  Pinecone_Index := λ _ w,
    if index_down w then (Raise unavailable, w) else (Ok (), w);
  get_embedding := λ content w, (Ok (embed content), w);
  uuid4 := λ w,
    (demo_uuid (uuids_issued w),
     {| index_store := index_store w; uuids_issued := S (uuids_issued w);
        files := files w; disk_read_only := disk_read_only w;
        index_down := index_down w |});
  index_upsert := λ vectors w,
    if index_down w then (Raise unavailable, w)
    else (Ok (), with_index w (foldl (λ st v, store_vector v st)
                                     (index_store w) vectors));
  index_query := λ q top_k _ criteria w,
    if index_down w then (Raise unavailable, w)
    else (Ok (demo_query q top_k criteria (index_store w)), w);
  index_delete := λ ids w,
    if index_down w then (Raise unavailable, w)
    else (Ok (), with_index w (filter (λ v, v_id v ∉ ids) (index_store w)));
  os_path_exists := λ file w, (Ok (bool_decide (is_Some (files w !! file))), w);
  pickle_load := λ file w,
    match files w !! file with
    | Some (Some cache) => (Ok cache, w)
    | Some None => (Raise (Exception "could not unpickle"), w)
    | None => (Raise (Exception "no such file"), w)
    end;
  pickle_dump := λ file cache w,
    if disk_read_only w then (Raise (Exception "read-only file system"), w)
    else (Ok (),
          {| index_store := index_store w; uuids_issued := uuids_issued w;
             files := <[file := Some cache]> (files w);
             disk_read_only := disk_read_only w; index_down := index_down w |})
|}.

(** An engine that has not been constructed yet, on an empty world. *)
Definition blank : RetrivalEngine scalar Z :=
  {| index_name := EmptyString; cache_dir := EmptyString;
     retrieval_cache_file := EmptyString; retrieval_cache := ∅ |}.

Definition world0 : demo_world :=
  {| index_store := []; uuids_issued := 0; files := ∅;
     disk_read_only := false; index_down := false |}.

Definition state0 (h : gmap ref (dict scalar))
  : state scalar (list Z) Z demo_world :=
  {| self := blank; heap := h; world := world0; trace := [] |}.

(** [RetrivalEngine()] with the default arguments. *)
Definition started (h : gmap ref (dict scalar))
  : state scalar (list Z) Z demo_world :=
  (__init__ demo "recommendation-index" "./embedding_cache" (state0 h)).2.

(** Two dicts of a caller. *)
Definition heap0 : gmap ref (dict scalar) :=
  {[ 0 := []; 1 := [("lang", SStr "en")] ]}.

(** A world whose disk refuses writes. *)
Definition world_read_only : demo_world :=
  {| index_store := []; uuids_issued := 0; files := ∅;
     disk_read_only := true; index_down := false |}.

(** A world whose snapshot file does not unpickle. *)
Definition world_damaged : demo_world :=
  {| index_store := []; uuids_issued := 0;
     files := {[ "./embedding_cache/retrieval_cache.pkl" := None ]};
     disk_read_only := false; index_down := false |}.

(** The engine after [add_item("hello world", {}, "article")]. *)
Definition stocked : state scalar (list Z) Z demo_world :=
  (add_item demo "hello world" 0 "article" (started heap0)).2.

End Demo.

(** ** More vocabulary *)

Section Calls.
Context {V Emb Score : Type}.

(** A write of the snapshot. *)
Definition is_dump (ev : event V Emb Score) : bool :=
  match ev with
  | EvPickleDump _ _ => true
  | _ => false
  end.

(** The calls each public method can make. *)
Definition may_call (o : operation V) (ev : event V Emb Score) : bool :=
  match ev, o with
  | EvGetEmbedding _, (AddItem _ _ _ | BulkAddItems _ _ _ | GetRetrivals _ _ _)
  | EvUuid4 _, AddItem _ _ _
  | EvUpsert _, (AddItem _ _ _ | BulkAddItems _ _ _)
  | EvQuery _ _ _ _, GetRetrivals _ _ _
  | EvDelete _, DeleteItem _
  | EvPickleDump _ _, _ => true
  | _, _ => false
  end.

(** The snapshot writes of a trace go to [file]. *)
Definition dumps_to (file : string) (ev : event V Emb Score) : Prop :=
  match ev with
  | EvPickleDump f _ => f = file
  | _ => True
  end.

(** The dict objects a call is passed. *)
Definition refs_of (o : operation V) : list ref :=
  match o with
  | AddItem _ metadata _ => [metadata]
  | BulkAddItems _ metadatas _ => metadatas
  | GetRetrivals _ _ _ | DeleteItem _ | ClearRetrievalCache => []
  end.

(** The four calls [__init__] makes before it reads the snapshot. *)
Definition setup_events (index cache_directory : string)
  : list (event V Emb Score) :=
  [EvMakedirs cache_directory; EvEmbeddingCache cache_directory;
   EvInitializePinecone index; EvPineconeIndex index].
End Calls.

(** No character of the string is the separator ["|"]. *)
Fixpoint no_bar (s : string) : bool :=
  match s with
  | EmptyString => true
  | String c s' => negb (bool_decide (c = "|"%char)) && no_bar s'
  end.

Section KeyString.
Context {V : Type} `{!PyAny V}.

(** [key_str], the string [_generate_retrieval_key] hashes. *)
Definition key_str (query : string) (top_k : Z)
    (filter_criteria : option (dict V)) : string :=
  query +:+ "|" +:+ pretty top_k +:+ "|" +:+ filter_str filter_criteria.
End KeyString.

Section Summary.
Context {V Emb Score W : Type} `{!PyAny V}.

(** What [run_op] adds to the trace, and what it does to [self]: either
    [self] is untouched and the snapshot is not written, or the call
    returns and ends by writing the cache it leaves in [self]. *)
Definition op_summary (ext : Collaborators V Emb Score W) (o : operation V)
    (s : state V Emb Score W) (t : list (event V Emb Score)) : Prop :=
  let out := run_op ext o s in
  let file := retrieval_cache_file (self s) in
  trace out.2 = trace s ++ t
  ∧ Forall (λ ev, may_call o ev = true) t
  ∧ ((self out.2 = self s ∧ Forall (λ ev, is_dump ev = false) t)
     ∨ (∃ r t0 cache,
          out.1 = Ok r
          ∧ t = t0 ++ [EvPickleDump file cache]
          ∧ self out.2 = with_cache (self s) cache
          ∧ Forall (λ ev, is_dump ev = false) t0)).

(** The calls [_load_retrieval_cache] makes on [file] in the world [w]:
    it looks for the file and loads it only when it is there. *)
Definition snapshot_reads (ext : Collaborators V Emb Score W) (file : string)
    (w : W) : list (event V Emb Score) :=
  EvPathExists file
  :: match os_path_exists ext file w with
     | (Ok true, _) => [EvPickleLoad file]
     | (Ok false, _) | (Raise _, _) => []
     end.

End Summary.

(** ** [_load_cache], [_save_cache]

    Nothing in the engine calls these two methods.  They work on the
    attribute [self.embedding_cache], which [__init__] sets to the
    [EmbeddingCache] object, and on the file [embedding_cache.pkl] of the
    cache directory.  The attribute is passed in and out. *)

Section EmbeddingCacheFile.
Context {V Score Obj W : Type}.

(** What [self.embedding_cache] holds: the object [__init__] made, what
    [pickle.load] gave, or [{}]. *)
Inductive embedding_cache_attr : Type :=
| TheEmbeddingCache
| Unpickled (o : Obj)
| EmptyDict.

(** What [with open(cache_file, "rb") as f: pickle.load(f)] raises, as far
    as [_load_cache] tells exceptions apart. *)
Inductive load_exception : Type :=
| FileNotFoundError
| EOFError
| OtherException (e : exception).

(** [with open(cache_file, "rb") as f: pickle.load(f)] *)
Variable open_load : string → W → (load_exception + Obj) * W.
(** [with open(cache_file, "wb") as f: pickle.dump(self.embedding_cache, f)] *)
Variable open_dump : string → embedding_cache_attr → W → result unit * W.

(** [except (FileNotFoundError, EOFError)]: any other exception goes on
    to the caller, and the attribute is not assigned. *)
Definition _load_cache (e : RetrivalEngine V Score)
    (embedding_cache : embedding_cache_attr) (w : W)
  : result unit * embedding_cache_attr * W :=
  let cache_file := os_path_join (cache_dir e) "embedding_cache.pkl" in
  match open_load cache_file w with
  | (inr o, w') => (Ok (), Unpickled o, w')
  | (inl FileNotFoundError, w') | (inl EOFError, w') => (Ok (), EmptyDict, w')
  | (inl (OtherException exn), w') => (Raise exn, embedding_cache, w')
  end.

(** [except Exception as e: print(...)] *)
Definition _save_cache (e : RetrivalEngine V Score)
    (embedding_cache : embedding_cache_attr) (w : W)
  : result unit * embedding_cache_attr * W :=
  let cache_file := os_path_join (cache_dir e) "embedding_cache.pkl" in
  match open_dump cache_file embedding_cache w with
  | (Ok _, w') | (Raise _, w') => (Ok (), embedding_cache, w')
  end.
End EmbeddingCacheFile.

(** ** The concrete instance with the index down *)

Module Outage.
Import Demo.

Definition down (w : demo_world) : demo_world :=
  {| index_store := index_store w; uuids_issued := uuids_issued w;
     files := files w; disk_read_only := disk_read_only w;
     index_down := true |}.

Definition cut_off (s : state scalar (list Z) Z demo_world)
  : state scalar (list Z) Z demo_world :=
  {| self := self s; heap := heap s; world := down (world s);
     trace := trace s |}.

(** The stocked engine once ["hello world"] was queried, then cut off
    from the index. *)
Definition queried : state scalar (list Z) Z demo_world :=
  (get_retrivals demo "hello world" 5 None stocked).2.

Definition queried_down : state scalar (list Z) Z demo_world :=
  cut_off queried.
End Outage.

(** * Properties *)

(** ** The order on keys *)

Lemma ltb_leb (a b : string) : String.ltb a b = negb (String.leb b a).
Proof.
  unfold String.ltb, String.leb. rewrite (String.compare_antisym a b).
  by destruct (String.compare b a).
Qed.

Lemma ltb_false_le (a b : string) : String.ltb a b = false ↔ String.le b a.
Proof.
  rewrite ltb_leb, negb_false_iff. unfold String.le.
  by rewrite Is_true_true.
Qed.

Lemma ltb_true_nle (a b : string) : String.ltb a b = true ↔ ¬ String.le b a.
Proof.
  rewrite <-ltb_false_le. by destruct (String.ltb a b).
Qed.

Lemma ltb_total (a b : string) :
  a ≠ b → String.ltb a b = true ∨ String.ltb b a = true.
Proof.
  intros Hne. rewrite !ltb_true_nle.
  destruct (decide (String.le a b)) as [Hab|Hab]; [|by right].
  left. intros Hba. apply Hne. by apply (anti_symm String.le).
Qed.

Lemma ltb_asym (a b : string) :
  String.ltb a b = true → String.ltb b a = false.
Proof.
  rewrite ltb_true_nle, ltb_false_le. intros Hnle.
  by destruct (total String.le a b).
Qed.

(** [x ≤ z < y] gives [x < y]. *)
Lemma le_ltb_trans (x z y : string) :
  String.ltb z x = false → String.ltb z y = true → String.ltb x y = true.
Proof.
  rewrite ltb_false_le, !ltb_true_nle. intros Hxz Hnyz Hyx.
  apply Hnyz. by trans x.
Qed.

(** ** [sorted] does not depend on the order of the items *)

Section Sorted.
Context {V : Type}.
Implicit Types (x y : string * V) (s l : list (string * V)).

Lemma sorted_insert_comm x y s :
  x.1 ≠ y.1 →
  sorted_insert x (sorted_insert y s) = sorted_insert y (sorted_insert x s).
Proof.
  intros Hne. induction s as [|z s IH]; simpl; unfold item_lt.
  - destruct (ltb_total _ _ Hne) as [Hlt|Hlt];
      rewrite Hlt, (ltb_asym _ _ Hlt); done.
  - destruct (String.ltb z.1 y.1) eqn:Hzy, (String.ltb z.1 x.1) eqn:Hzx;
      simpl; unfold item_lt; rewrite ?Hzy, ?Hzx.
    + by rewrite IH.
    + by rewrite (le_ltb_trans _ _ _ Hzx Hzy).
    + by rewrite (le_ltb_trans _ _ _ Hzy Hzx).
    + destruct (ltb_total _ _ Hne) as [Hlt|Hlt];
        rewrite Hlt, (ltb_asym _ _ Hlt), ?Hzy, ?Hzx; done.
Qed.

Lemma sorted_Permutation l1 l2 :
  dict_wf l1 → l1 ≡ₚ l2 → sorted l1 = sorted l2.
Proof.
  unfold dict_wf. intros Hwf Hperm. induction Hperm as [|x l l' _ IH|x y l|l l' l'' Hp1 IH1 Hp2 IH2].
  - done.
  - simpl. rewrite IH; [done|]. by apply NoDup_cons_1_2 in Hwf.
  - simpl. apply sorted_insert_comm.
    rewrite !fmap_cons in Hwf. apply NoDup_cons_1_1 in Hwf.
    intros Heq. apply Hwf. rewrite Heq. by left.
  - rewrite IH1 by done. apply IH2. by rewrite <-Hp1.
Qed.

Lemma sorted_insert_Permutation x s : sorted_insert x s ≡ₚ x :: s.
Proof.
  induction s as [|z s IH]; simpl; [done|].
  destruct (item_lt z x); [|done]. rewrite IH. apply perm_swap.
Qed.

Lemma sorted_is_Permutation l : sorted l ≡ₚ l.
Proof.
  induction l as [|x l IH]; simpl; [done|].
  by rewrite sorted_insert_Permutation, IH.
Qed.

(** The keys of the result go up. *)
Lemma sorted_insert_Sorted x s :
  Sorted (λ a b, String.le a.1 b.1) s →
  Sorted (λ a b, String.le a.1 b.1) (sorted_insert x s).
Proof.
  induction 1 as [|z s Hs IH Hhd]; simpl.
  - by repeat constructor.
  - unfold item_lt. destruct (String.ltb z.1 x.1) eqn:Hzx.
    + constructor; [done|].
      destruct Hhd as [|w s Hzw]; simpl.
      * constructor. apply ltb_true_nle in Hzx.
        by destruct (total String.le z.1 x.1).
      * unfold item_lt. destruct (String.ltb w.1 x.1); constructor; [done|].
        apply ltb_true_nle in Hzx. by destruct (total String.le z.1 x.1).
    + apply ltb_false_le in Hzx. by repeat constructor.
Qed.

Lemma sorted_Sorted l : Sorted (λ a b, String.le a.1 b.1) (sorted l).
Proof.
  induction l as [|x l IH]; simpl; [constructor|].
  by apply sorted_insert_Sorted.
Qed.

Lemma dict_bool_Permutation (d1 d2 : dict V) :
  d1 ≡ₚ d2 → dict_bool d1 = dict_bool d2.
Proof.
  intros Hp. destruct d1, d2; try done.
  - by apply Permutation_nil_cons in Hp.
  - symmetry in Hp. by apply Permutation_nil_cons in Hp.
Qed.
End Sorted.

(** ** Dicts *)

Section Dict.
Context {V : Type}.
Implicit Types (d : dict V) (k : string) (v : V).

Lemma dict_get_set_eq k v d : dict_get k (dict_set k v d) = Some v.
Proof.
  induction d as [|[k' v'] d IH]; simpl.
  - by rewrite decide_True.
  - destruct (decide (k' = k)) as [->|Hne]; simpl.
    + by rewrite decide_True.
    + by rewrite decide_False.
Qed.

Lemma dict_get_set_ne k k' v d :
  k ≠ k' → dict_get k' (dict_set k v d) = dict_get k' d.
Proof.
  intros Hne. induction d as [|[k0 v0] d IH]; simpl.
  - by rewrite decide_False.
  - destruct (decide (k0 = k)) as [->|Hne0]; simpl.
    + by rewrite !decide_False.
    + by rewrite IH.
Qed.

Lemma heap_get_insert_eq (h : gmap ref (dict V)) r d :
  heap_get (<[r := d]> h) r = d.
Proof. unfold heap_get. by rewrite lookup_insert_eq. Qed.

Lemma heap_get_insert_ne (h : gmap ref (dict V)) r r' d :
  r ≠ r' → heap_get (<[r := d]> h) r' = heap_get h r'.
Proof. intros. unfold heap_get. by rewrite lookup_insert_ne. Qed.
End Dict.

(** ** Stepping through a method body *)

Ltac unfold_M :=
  unfold upsert, set_index_name, set_cache_dir, set_retrieval_cache_file,
    set_retrieval_cache, getitem, mbind, mret, M_bind, M_ret, raise,
    try_except, call, new_uuid, get_self, set_self, setitem in *.

Section Methods.
Context {V Emb Score W : Type} `{!PyAny V}.
Variable ext : Collaborators V Emb Score W.
Implicit Types (s : state V Emb Score W) (w : W).

(** The state after [self.retrieval_cache = cache]. *)
Lemma _save_retrieval_cache_eq s :
  _save_retrieval_cache ext s =
  (Ok (),
   {| self := self s; heap := heap s;
      world := (pickle_dump ext (retrieval_cache_file (self s))
                            (retrieval_cache (self s)) (world s)).2;
      trace := trace s ++ [EvPickleDump (retrieval_cache_file (self s))
                                        (retrieval_cache (self s))] |}).
Proof.
  unfold _save_retrieval_cache. unfold_M. simpl.
  by destruct (pickle_dump _ _ _ _) as [[[]|e] w].
Qed.

Lemma embeddings_loop_frame contents : ∀ embeddings s r s',
  embeddings_loop ext embeddings contents s = (r, s') →
  self s' = self s ∧ heap s' = heap s.
Proof.
  induction contents as [|c cs IH]; intros acc s r s' Hrun; simpl in Hrun.
  - unfold_M. by simplify_eq.
  - unfold_M. destruct (get_embedding ext c (world s)) as [[e|e] w].
    + apply IH in Hrun. by simpl in Hrun.
    + by simplify_eq.
Qed.

Lemma embeddings_loop_length contents : ∀ embeddings s embeddings' s',
  embeddings_loop ext embeddings contents s = (Ok embeddings', s') →
  length embeddings' = length embeddings + length contents.
Proof.
  induction contents as [|c cs IH]; intros acc s acc' s' Hrun; simpl in Hrun.
  - unfold_M. simplify_eq. simpl. lia.
  - unfold_M. destruct (get_embedding ext c (world s)) as [[e|e] w];
      [|done].
    apply IH in Hrun. rewrite length_app in Hrun. simpl in *. lia.
Qed.

Lemma embeddings_loop_trace contents : ∀ embeddings s embeddings' s',
  embeddings_loop ext embeddings contents s = (Ok embeddings', s') →
  trace s' = trace s ++ (EvGetEmbedding <$> contents).
Proof.
  induction contents as [|c cs IH]; intros acc s acc' s' Hrun; simpl in Hrun.
  - unfold_M. simplify_eq. simpl. by rewrite app_nil_r.
  - unfold_M. destruct (get_embedding ext c (world s)) as [[e|e] w];
      [|done].
    apply IH in Hrun. simpl in Hrun. by rewrite <-(assoc_L (++)) in Hrun.
Qed.

Lemma format_loop_eq (matches : list (scored_vector V Emb Score)) :
  ∀ recommendations,
  format_loop recommendations matches
  = recommendations ++ (format_match <$> matches).
Proof.
  induction matches as [|m ms IH]; intros acc; simpl.
  - by rewrite app_nil_r.
  - by rewrite IH, <-(assoc_L (++)).
Qed.

(** The second loop of [bulk_add_items] makes no call and, on item types
    that reach as far as the zipped items, raises nothing. *)
Lemma vectors_loop_eq zipped : ∀ vectors seen item_types s,
  length zipped ≤ length item_types →
  vectors_loop vectors (length seen) zipped (seen ++ item_types) s =
  (Ok (vectors ++ imap (λ j '(_, metadata, embedding),
                          {| vr_id := "item_" +:+ pretty (length seen + j);
                             vr_values := embedding;
                             vr_metadata := metadata |}) zipped),
   {| self := self s;
      heap := merge_all (heap s) zipped.*1.*1 zipped.*1.*2 item_types;
      world := world s; trace := trace s |}).
Proof.
  induction zipped as [|[[c m] e] zipped IH];
    intros acc seen tys s Hlen; simpl.
  - unfold_M. rewrite app_nil_r. by destruct s.
  - destruct tys as [|t tys]; simpl in Hlen; [lia|].
    unfold_M. rewrite list_lookup_middle by done. simpl.
    rewrite heap_get_insert_eq, insert_insert_eq.
    replace (S (length seen)) with (length (seen ++ [t]))
      by (rewrite length_app; simpl; lia).
    rewrite (cons_middle t seen tys), (assoc_L (++)).
    rewrite IH by (simpl; lia). simpl.
    rewrite <-(assoc_L (++)). simpl. rewrite Nat.add_0_r.
    f_equal. f_equal. f_equal. f_equal.
    apply imap_ext. intros j [[??]?] _. simpl.
    rewrite length_app. simpl. do 3 f_equal. lia.
Qed.
End Methods.

Section Operations.
Context {V Emb Score W : Type} `{!PyAny V}.
Variable ext : Collaborators V Emb Score W.
Implicit Types (s : state V Emb Score W) (w : W).

(** When [add_item] returns, and the state it leaves. *)
Lemma add_item_returns (content : string) (metadata : ref)
    (item_type : string) s (item_id : string) s' :
  add_item ext content metadata item_type s = (Ok item_id, s') ↔
  ∃ embedding w1 w2 w3,
    let file := retrieval_cache_file (self s) in
    let v := {| v_id := item_id; v_values := embedding;
                v_metadata := merged (heap_get (heap s) metadata)
                                     content item_type |} in
    get_embedding ext content (world s) = (Ok embedding, w1)
    ∧ uuid4 ext w1 = (item_id, w2)
    ∧ index_upsert ext [v] w2 = (Ok (), w3)
    ∧ s' = {| self := with_cache (self s) ∅;
              heap := merge_into (heap s) metadata content item_type;
              world := (pickle_dump ext file ∅ w3).2;
              trace := trace s ++ [EvGetEmbedding content; EvUuid4 item_id;
                                   EvUpsert [v]; EvPickleDump file ∅] |}.
Proof.
  unfold add_item, merge_into, merged, with_cache. unfold_M. simpl.
  rewrite heap_get_insert_eq, insert_insert_eq.
  destruct (get_embedding ext content (world s)) as [[emb|e] w1] eqn:Hemb;
    simpl.
  2:{ split; [done|]. by intros (?&?&?&?&?&_). }
  destruct (uuid4 ext w1) as [u w2] eqn:Hu; simpl.
  unfold deref; simpl. rewrite heap_get_insert_eq.
  destruct (index_upsert ext _ w2) as [[[]|e] w3] eqn:Hup; simpl.
  - rewrite _save_retrieval_cache_eq; simpl. rewrite <-!(assoc_L (++)); simpl.
    split.
    + intros [= <- <-]. exists emb, w1, w2, w3. by rewrite Hup.
    + intros (emb'&w1'&w2'&w3'&[= <- <-]&Hu'&Hup'&->).
      rewrite Hu in Hu'. injection Hu' as <- <-.
      rewrite Hup in Hup'. by injection Hup' as <-.
  - split; [done|].
    intros (emb'&w1'&w2'&w3'&[= <- <-]&Hu'&Hup'&_).
    rewrite Hu in Hu'. injection Hu' as <- <-.
    rewrite Hup in Hup'. done.
Qed.
End Operations.

(** ** Batches *)

Section Batch.
Context {V Emb : Type}.

Lemma zip3_length {A B C} (la : list A) (lb : list B) (lc : list C) :
  length la = length lb → length lb = length lc →
  length (zip3 la lb lc) = length la.
Proof.
  revert lb lc. induction la as [|a la IH]; intros [|b lb] [|c lc] ??;
    simplify_eq/=; auto.
Qed.

Lemma zip3_fst {A B C} (la : list A) (lb : list B) (lc : list C) :
  length la = length lb → length lb = length lc →
  (zip3 la lb lc).*1.*1 = la.
Proof.
  revert lb lc. induction la as [|a la IH]; intros [|b lb] [|c lc] ??;
    simplify_eq/=; f_equal; auto.
Qed.

Lemma zip3_snd {A B C} (la : list A) (lb : list B) (lc : list C) :
  length la = length lb → length lb = length lc →
  (zip3 la lb lc).*1.*2 = lb.
Proof.
  revert lb lc. induction la as [|a la IH]; intros [|b lb] [|c lc] ??;
    simplify_eq/=; f_equal; auto.
Qed.

Lemma deref_imap (h : gmap ref (dict V)) (zipped : list (string * ref * Emb)) :
  ∀ i,
  deref h <$> imap (λ j '(_, metadata, embedding),
                      {| vr_id := "item_" +:+ pretty (i + j);
                         vr_values := embedding;
                         vr_metadata := metadata |}) zipped
  = batch_vectors h i zipped.
Proof.
  induction zipped as [|[[c m] e] zipped IH]; intros i; simpl; [done|].
  rewrite Nat.add_0_r. unfold deref at 1; simpl. f_equal.
  rewrite <-IH. f_equal. apply imap_ext. intros j [[??]?] _. simpl.
  do 3 f_equal. lia.
Qed.

Lemma vr_id_imap (zipped : list (string * ref * Emb)) : ∀ i,
  vr_id <$> imap (λ j '(_, metadata, embedding),
                    {| vr_id := "item_" +:+ pretty (i + j);
                       vr_values := embedding;
                       vr_metadata := metadata |}) zipped
  = (λ j : nat, "item_" +:+ pretty j) <$> seq i (length zipped).
Proof.
  induction zipped as [|[[c m] e] zipped IH]; intros i; simpl; [done|].
  rewrite Nat.add_0_r. f_equal. rewrite <-IH. f_equal.
  apply imap_ext. intros j [[??]?] _. simpl. do 3 f_equal. lia.
Qed.

Lemma item_ids_prefix (n1 n2 : nat) :
  n1 ≤ n2 → item_ids n1 `prefix_of` item_ids n2.
Proof.
  intros Hle. unfold item_ids.
  replace n2 with (n1 + (n2 - n1)) by lia.
  rewrite seq_app, fmap_app. by apply prefix_app_r.
Qed.

Lemma item_ids_NoDup (n : nat) : NoDup (item_ids n).
Proof.
  unfold item_ids. apply NoDup_fmap_2; [|apply NoDup_seq].
  intros i j Heq. apply (inj (String.app "item_")) in Heq.
  by apply (inj pretty) in Heq.
Qed.
End Batch.

Section Bulk.
Context {V Emb Score W : Type} `{!PyAny V}.
Variable ext : Collaborators V Emb Score W.
Implicit Types (s : state V Emb Score W) (w : W).

(** [bulk_add_items] returns exactly when the three sequences have one
    length, every embedding lookup answers and the one batched upsert is
    accepted.  The dicts are written first item first, the index receives
    every vector with its dict as it is after all the writes, and the ids
    are the positions. *)
Lemma bulk_add_items_returns (contents : list string)
    (metadatas : list ref) (item_types : list string) s
    (ids : list string) s' :
  bulk_add_items ext contents metadatas item_types s = (Ok ids, s') ↔
  length contents = length metadatas
  ∧ length metadatas = length item_types
  ∧ ∃ embeddings s1 w3,
      let file := retrieval_cache_file (self s) in
      let h := merge_all (heap s) contents metadatas item_types in
      let vectors :=
        batch_vectors h 0 (zip3 contents metadatas embeddings) in
      embeddings_loop ext [] contents s = (Ok embeddings, s1)
      ∧ index_upsert ext vectors (world s1) = (Ok (), w3)
      ∧ ids = item_ids (length contents)
      ∧ s' = {| self := with_cache (self s) ∅;
                heap := h;
                world := (pickle_dump ext file ∅ w3).2;
                trace := trace s ++ (EvGetEmbedding <$> contents)
                           ++ [EvUpsert vectors; EvPickleDump file ∅] |}.
Proof.
  unfold bulk_add_items.
  destruct (bool_decide (length contents = length metadatas)) eqn:H1;
    simpl.
  2:{ apply bool_decide_eq_false in H1. unfold raise.
      split; [done|]. by intros (?&_). }
  destruct (bool_decide (length metadatas = length item_types)) eqn:H2;
    simpl.
  2:{ apply bool_decide_eq_false in H2. unfold raise.
      split; [done|]. by intros (_&?&_). }
  apply bool_decide_eq_true in H1, H2.
  unfold mbind at 1, M_bind at 1.
  destruct (embeddings_loop ext [] contents s) as [[embs|e] s1] eqn:Hemb.
  2:{ split; [done|]. by intros (_&_&?&?&?&?&_). }
  pose proof (embeddings_loop_length _ _ _ _ _ _ Hemb) as Hlen.
  pose proof (embeddings_loop_frame _ _ _ _ _ _ Hemb) as [Hself Hheap].
  pose proof (embeddings_loop_trace _ _ _ _ _ _ Hemb) as Htrace.
  simpl in Hlen.
  unfold mbind at 1, M_bind at 1.
  rewrite (vectors_loop_eq _ [] [] item_types s1)
    by (rewrite zip3_length by lia; lia).
  simpl. rewrite zip3_fst, zip3_snd by lia.
  unfold upsert. unfold_M. simpl.
  rewrite (deref_imap _ _ 0), (vr_id_imap _ 0), zip3_length by lia.
  fold (item_ids (length contents)).
  rewrite Hself, Hheap, Htrace.
  destruct (index_upsert ext _ (world s1)) as [[[]|e] w3] eqn:Hup; simpl.
  - rewrite _save_retrieval_cache_eq; simpl.
    rewrite <-!(assoc_L (++)); simpl. unfold with_cache.
    split.
    + intros [= <- <-]. do 2 (split; [done|]).
      exists embs, s1, w3. by rewrite Hup.
    + intros (_&_&embs'&s1'&w3'&[= <- <-]&Hup'&->&->).
      rewrite Hup in Hup'. by injection Hup' as <-.
  - split; [done|].
    intros (_&_&embs'&s1'&w3'&[= <- <-]&Hup'&_).
    rewrite Hup in Hup'. done.
Qed.

End Bulk.

(** ** Queries *)

Section Query.
Context {V Emb Score W : Type} `{!PyAny V}.
Variable ext : Collaborators V Emb Score W.
Implicit Types (s : state V Emb Score W) (w : W).

(** A hit returns the cached list and touches nothing. *)
Lemma get_retrivals_hit (query : string) (top_k : Z)
    (filter_criteria : option (dict V)) s cached :
  retrieval_cache (self s)
    !! _generate_retrieval_key (md5_hexdigest ext) query top_k filter_criteria
  = Some cached →
  get_retrivals ext query top_k filter_criteria s = (Ok cached, s).
Proof.
  intros Hhit. unfold get_retrivals. unfold_M. by rewrite Hhit.
Qed.

(** A miss asks the embedding cache, then the index, stores the formatted
    matches and writes the snapshot. *)
Lemma get_retrivals_miss (query : string) (top_k : Z)
    (filter_criteria : option (dict V)) s embedding w1 matches w2 :
  let key := _generate_retrieval_key (md5_hexdigest ext) query top_k
                                     filter_criteria in
  let file := retrieval_cache_file (self s) in
  let recommendations := format_match <$> matches in
  let cache := <[key := recommendations]> (retrieval_cache (self s)) in
  retrieval_cache (self s) !! key = None →
  get_embedding ext query (world s) = (Ok embedding, w1) →
  index_query ext embedding top_k true filter_criteria w1 = (Ok matches, w2) →
  get_retrivals ext query top_k filter_criteria s =
  (Ok recommendations,
   {| self := with_cache (self s) cache;
      heap := heap s;
      world := (pickle_dump ext file cache w2).2;
      trace := trace s ++ [EvGetEmbedding query;
                           EvQuery embedding top_k true filter_criteria;
                           EvPickleDump file cache] |}).
Proof.
  intros key file recs cache Hmiss Hemb Hq.
  unfold get_retrivals. unfold_M. fold key. rewrite Hmiss, Hemb. simpl.
  rewrite Hq. simpl. rewrite _save_retrieval_cache_eq. simpl.
  rewrite format_loop_eq. simpl. by rewrite <-!(assoc_L (++)).
Qed.

(** What a [get_retrivals] call can have done. *)
Lemma get_retrivals_inv (query : string) (top_k : Z)
    (filter_criteria : option (dict V)) s r s' :
  let key := _generate_retrieval_key (md5_hexdigest ext) query top_k
                                     filter_criteria in
  get_retrivals ext query top_k filter_criteria s = (r, s') →
  (∃ cached, retrieval_cache (self s) !! key = Some cached
             ∧ r = Ok cached ∧ s' = s)
  ∨ (retrieval_cache (self s) !! key = None
     ∧ ((∃ e, r = Raise e ∧ self s' = self s ∧ heap s' = heap s)
        ∨ (∃ embedding w1 matches w2,
             get_embedding ext query (world s) = (Ok embedding, w1)
             ∧ index_query ext embedding top_k true filter_criteria w1
               = (Ok matches, w2)
             ∧ r = Ok (format_match <$> matches)
             ∧ self s' = with_cache (self s)
                   (<[key := format_match <$> matches]>
                      (retrieval_cache (self s)))
             ∧ heap s' = heap s))).
Proof.
  intros key Hrun.
  destruct (retrieval_cache (self s) !! key) as [cached|] eqn:Hlook.
  - left. exists cached.
    rewrite (get_retrivals_hit _ _ _ s _ Hlook) in Hrun.
    by simplify_eq.
  - right. split; [done|].
    destruct (get_embedding ext query (world s)) as [[emb|e] w1] eqn:Hemb.
    2:{ left. unfold get_retrivals in Hrun. unfold_M. fold key in Hrun.
        rewrite Hlook, Hemb in Hrun. simplify_eq. by exists e. }
    destruct (index_query ext emb top_k true filter_criteria w1)
      as [[ms|e] w2] eqn:Hq.
    2:{ left. unfold get_retrivals in Hrun. unfold_M. fold key in Hrun.
        rewrite Hlook, Hemb in Hrun. simpl in Hrun. rewrite Hq in Hrun.
        simplify_eq. by exists e. }
    right.
    rewrite (get_retrivals_miss _ _ _ s _ _ _ _ Hlook Hemb Hq) in Hrun.
    simplify_eq. by exists emb, w1, ms, w2.
Qed.

(** A list [get_retrivals] returns is in the cache afterwards. *)
Lemma get_retrivals_cached (query : string) (top_k : Z)
    (filter_criteria : option (dict V)) s recs s' :
  get_retrivals ext query top_k filter_criteria s = (Ok recs, s') →
  retrieval_cache (self s')
    !! _generate_retrieval_key (md5_hexdigest ext) query top_k filter_criteria
  = Some recs.
Proof.
  intros Hrun. apply get_retrivals_inv in Hrun
    as [(c&Hc&?&->)|(_&[(e&?&_)|(emb&w1&ms&w2&_&_&?&->&_)])];
    simplify_eq; [done|].
  simpl. by rewrite lookup_insert_eq.
Qed.

(** [delete_item] returns exactly when the index accepts the deletion;
    the retrieval cache is then empty. *)
Lemma delete_item_success (item_id : string) s r s' :
  delete_item ext item_id s = (Ok r, s') ↔
  ∃ w1, let file := retrieval_cache_file (self s) in
    index_delete ext [item_id] (world s) = (Ok (), w1)
    ∧ s' = {| self := with_cache (self s) ∅; heap := heap s;
              world := (pickle_dump ext file ∅ w1).2;
              trace := trace s ++ [EvDelete [item_id];
                                   EvPickleDump file ∅] |}.
Proof.
  unfold delete_item. unfold_M.
  destruct (index_delete ext [item_id] (world s)) as [[[]|e] w1] eqn:Hdel;
    simpl.
  - rewrite _save_retrieval_cache_eq. simpl. rewrite <-!(assoc_L (++)).
    simpl. unfold with_cache. destruct r. split.
    + intros [= <-]. by exists w1.
    + by intros (w1'&[= <-]&->).
  - split; [done|]. by intros (?&?&_).
Qed.

Lemma clear_retrieval_cache_eq s :
  clear_retrieval_cache ext s =
  (Ok (), {| self := with_cache (self s) ∅; heap := heap s;
             world := (pickle_dump ext (retrieval_cache_file (self s)) ∅
                                   (world s)).2;
             trace := trace s ++ [EvPickleDump (retrieval_cache_file (self s))
                                               ∅] |}).
Proof.
  unfold clear_retrieval_cache. unfold_M.
  by rewrite _save_retrieval_cache_eq.
Qed.
End Query.

(** ** What the writes do to the callers' dicts *)

Section Merge.
Context {V : Type} `{!PyAny V}.
Implicit Types (h : gmap ref (dict V)) (r m : ref).

Lemma merged_content (d : dict V) content item_type :
  dict_get "content" (merged d content item_type) = Some (py_of_str content).
Proof.
  unfold merged. rewrite dict_get_set_ne by done. apply dict_get_set_eq.
Qed.

Lemma merged_item_type (d : dict V) content item_type :
  dict_get "item_type" (merged d content item_type)
  = Some (py_of_str item_type).
Proof. unfold merged. apply dict_get_set_eq. Qed.

Lemma merged_other (d : dict V) content item_type k :
  k ≠ "content" → k ≠ "item_type" →
  dict_get k (merged d content item_type) = dict_get k d.
Proof.
  intros ??. unfold merged. by rewrite !dict_get_set_ne.
Qed.

Lemma merge_into_other_key h m content item_type r k :
  k ≠ "content" → k ≠ "item_type" →
  dict_get k (heap_get (merge_into h m content item_type) r)
  = dict_get k (heap_get h r).
Proof.
  intros ??. unfold merge_into. destruct (decide (m = r)) as [->|Hne].
  - rewrite heap_get_insert_eq. by apply merged_other.
  - by rewrite heap_get_insert_ne.
Qed.

Lemma merge_all_other_key contents : ∀ h metadatas item_types r k,
  k ≠ "content" → k ≠ "item_type" →
  dict_get k (heap_get (merge_all h contents metadatas item_types) r)
  = dict_get k (heap_get h r).
Proof.
  induction contents as [|c cs IH]; intros h [|m ms] [|t ts] r k ??;
    simpl; try done.
  rewrite IH by done. by apply merge_into_other_key.
Qed.

Lemma merge_all_other_ref contents : ∀ h metadatas item_types r,
  r ∉ metadatas →
  merge_all h contents metadatas item_types !! r = h !! r.
Proof.
  induction contents as [|c cs IH]; intros h [|m ms] [|t ts] r Hr;
    simpl; try done.
  apply not_elem_of_cons in Hr as [Hne Hr].
  rewrite IH by done. unfold merge_into. by rewrite lookup_insert_ne.
Qed.

(** The dict of an item that is not passed again further on holds the
    content and the type of that item. *)
Lemma merge_all_last contents : ∀ h metadatas item_types i c m t,
  contents !! i = Some c → metadatas !! i = Some m →
  item_types !! i = Some t →
  (∀ j, i < j → metadatas !! j ≠ Some m) →
  dict_get "content" (heap_get (merge_all h contents metadatas item_types) m)
    = Some (py_of_str c)
  ∧ dict_get "item_type"
      (heap_get (merge_all h contents metadatas item_types) m)
    = Some (py_of_str t).
Proof.
  induction contents as [|c0 cs IH]; intros h [|m0 ms] [|t0 ts] i c m t
    Hc Hm Ht Hlast; try done.
  destruct i as [|i]; simpl in *.
  - simplify_eq. unfold heap_get. rewrite merge_all_other_ref.
    + unfold merge_into. rewrite lookup_insert_eq. simpl.
      by rewrite merged_content, merged_item_type.
    + intros [j Hj]%list_elem_of_lookup. apply (Hlast (S j)); [lia|done].
  - apply (IH _ ms ts i); try done.
    intros j Hj. apply (Hlast (S j)). lia.
Qed.
End Merge.

(** ** One operation *)

Section Step.
Context {V Emb Score W : Type} `{!PyAny V}.
Variable ext : Collaborators V Emb Score W.
Implicit Types (s : state V Emb Score W) (w : W) (o : operation V).

(** [add_item] writes into the caller's dict before anything can fail. *)
Lemma add_item_heap content metadata item_type s :
  heap (add_item ext content metadata item_type s).2
  = merge_into (heap s) metadata content item_type.
Proof.
  unfold add_item, merge_into, merged. unfold_M. simpl.
  rewrite heap_get_insert_eq, insert_insert_eq.
  destruct (get_embedding ext content (world s)) as [[emb|e] w1]; [|done].
  simpl. destruct (uuid4 ext w1) as [u w2]. simpl.
  destruct (index_upsert ext _ w2) as [[[]|e] w3]; [|done]. simpl.
  by rewrite _save_retrieval_cache_eq.
Qed.

Lemma add_item_self content metadata item_type s :
  let out := add_item ext content metadata item_type s in
  match out.1 with
  | Ok _ => self out.2 = with_cache (self s) ∅
  | Raise _ => self out.2 = self s
  end.
Proof.
  unfold add_item. unfold_M. simpl.
  destruct (get_embedding ext content (world s)) as [[emb|e] w1]; [|done].
  simpl. destruct (uuid4 ext w1) as [u w2]. simpl.
  destruct (index_upsert ext _ w2) as [[[]|e] w3]; [|done]. simpl.
  by rewrite _save_retrieval_cache_eq.
Qed.

Lemma bulk_add_items_self contents metadatas item_types s :
  let out := bulk_add_items ext contents metadatas item_types s in
  match out.1 with
  | Ok _ => self out.2 = with_cache (self s) ∅
  | Raise _ => self out.2 = self s
  end.
Proof.
  simpl.
  destruct (bulk_add_items ext contents metadatas item_types s)
    as [[ids|e] s'] eqn:Hrun; simpl.
  { apply bulk_add_items_returns in Hrun
      as (_&_&embs&s1&w3&_&_&_&->). done. }
  unfold bulk_add_items in Hrun.
  destruct (bool_decide (length contents = length metadatas)) eqn:H1;
    simpl in Hrun; [|unfold raise in Hrun; by simplify_eq].
  destruct (bool_decide (length metadatas = length item_types)) eqn:H2;
    simpl in Hrun; [|unfold raise in Hrun; by simplify_eq].
  apply bool_decide_eq_true in H1, H2.
  unfold mbind at 1, M_bind at 1 in Hrun.
  destruct (embeddings_loop ext [] contents s) as [[embs|e'] s1] eqn:Hemb.
  2:{ simplify_eq. by apply embeddings_loop_frame in Hemb as [? _]. }
  pose proof (embeddings_loop_length _ _ _ _ _ _ Hemb) as Hlen.
  pose proof (embeddings_loop_frame _ _ _ _ _ _ Hemb) as [Hself _].
  simpl in Hlen. unfold mbind at 1, M_bind at 1 in Hrun.
  rewrite (vectors_loop_eq _ [] [] item_types s1) in Hrun
    by (rewrite zip3_length by lia; lia).
  unfold upsert in Hrun. unfold_M. simpl in Hrun.
  destruct (index_upsert ext _ (world s1)) as [[[]|e''] w3]; simpl in Hrun.
  - rewrite _save_retrieval_cache_eq in Hrun. done.
  - by simplify_eq.
Qed.

Lemma delete_item_self item_id s :
  let out := delete_item ext item_id s in
  match out.1 with
  | Ok _ => self out.2 = with_cache (self s) ∅
  | Raise _ => self out.2 = self s
  end.
Proof.
  unfold delete_item. unfold_M. simpl.
  destruct (index_delete ext [item_id] (world s)) as [[[]|e] w1]; [|done].
  simpl. by rewrite _save_retrieval_cache_eq.
Qed.

(** A successful mutation leaves the retrieval cache empty. *)
Lemma mutation_empties_cache o s r s' :
  is_mutation o = true → run_op ext o s = (Ok r, s') →
  retrieval_cache (self s') = ∅.
Proof.
  intros Hmut Hrun. destruct o as [c m t|cs ms ts|q k f|i|]; try done;
    simpl in Hrun.
  - pose proof (add_item_self c m t s) as Hs.
    destruct (add_item ext c m t s) as [[?|?] ?]; simplify_eq/=.
    by rewrite Hs.
  - pose proof (bulk_add_items_self cs ms ts s) as Hs.
    destruct (bulk_add_items ext cs ms ts s) as [[?|?] ?]; simplify_eq/=.
    by rewrite Hs.
  - pose proof (delete_item_self i s) as Hs.
    destruct (delete_item ext i s) as [[?|?] ?]; simplify_eq/=.
    by rewrite Hs.
Qed.

(** What one call can do to the retrieval cache: nothing, empty it, or,
    for a [get_retrivals] that misses, add what the index answered. *)
Lemma run_op_cache o s :
  let s' := (run_op ext o s).2 in
  retrieval_cache (self s') = retrieval_cache (self s)
  ∨ retrieval_cache (self s') = ∅
  ∨ ∃ query top_k filter_criteria recs,
      let key := _generate_retrieval_key (md5_hexdigest ext) query top_k
                                         filter_criteria in
      o = GetRetrivals query top_k filter_criteria
      ∧ retrieval_cache (self s) !! key = None
      ∧ (get_retrivals ext query top_k filter_criteria s).1 = Ok recs
      ∧ retrieval_cache (self s') = <[key := recs]> (retrieval_cache (self s)).
Proof.
  destruct o as [c m t|cs ms ts|q k f|i|]; simpl.
  - pose proof (add_item_self c m t s) as Hs.
    destruct (add_item ext c m t s) as [[?|?] ?]; simpl in *; rewrite Hs; auto.
  - pose proof (bulk_add_items_self cs ms ts s) as Hs.
    destruct (bulk_add_items ext cs ms ts s) as [[?|?] ?]; simpl in *;
      rewrite Hs; auto.
  - destruct (get_retrivals ext q k f s) as [r s'] eqn:Hrun. simpl.
    pose proof Hrun as Hinv. apply get_retrivals_inv in Hinv
      as [(c&Hc&->&->)|(Hmiss&[(e&->&->&_)|(emb&w1&ms&w2&_&_&->&Hs&_)])];
      auto.
    right. right. exists q, k, f, (format_match <$> ms).
    by rewrite Hrun, Hs.
  - pose proof (delete_item_self i s) as Hs.
    destruct (delete_item ext i s) as [[?|?] ?]; simpl in *; rewrite Hs; auto.
  - rewrite clear_retrieval_cache_eq. simpl. auto.
Qed.

(** *** The trace only grows *)

Lemma uuids_of_app (t1 t2 : list (event V Emb Score)) :
  uuids_of (t1 ++ t2) = uuids_of t1 ++ uuids_of t2.
Proof.
  induction t1 as [|ev t1 IH]; simpl; [done|].
  destruct ev; simpl; by rewrite IH.
Qed.

Lemma uuids_of_get_embedding (contents : list string) :
  uuids_of (V:=V) (Emb:=Emb) (Score:=Score) (EvGetEmbedding <$> contents)
  = [].
Proof. by induction contents. Qed.

Lemma embeddings_loop_trace_grows contents : ∀ embeddings s r s',
  embeddings_loop ext embeddings contents s = (r, s') →
  ∃ t, trace s' = trace s ++ t.
Proof.
  induction contents as [|c cs IH]; intros acc s r s' Hrun; simpl in Hrun.
  - unfold_M. simplify_eq. exists []. by rewrite app_nil_r.
  - unfold_M. destruct (get_embedding ext c (world s)) as [[e|e] w].
    + apply IH in Hrun as [t Ht]. simpl in Ht. rewrite <-(assoc_L (++)) in Ht.
      by eexists.
    + simplify_eq. by eexists.
Qed.

Lemma add_item_trace_grows content metadata item_type s :
  ∃ t, trace (add_item ext content metadata item_type s).2 = trace s ++ t.
Proof.
  unfold add_item. unfold_M. simpl.
  destruct (get_embedding ext content (world s)) as [[emb|e] w1];
    [|by eexists].
  simpl. destruct (uuid4 ext w1) as [u w2]. simpl.
  destruct (index_upsert ext _ w2) as [[[]|e] w3]; simpl.
  - rewrite _save_retrieval_cache_eq. simpl. rewrite <-!(assoc_L (++)).
    by eexists.
  - rewrite <-!(assoc_L (++)). by eexists.
Qed.

Lemma bulk_add_items_trace_grows contents metadatas item_types s :
  ∃ t, trace (bulk_add_items ext contents metadatas item_types s).2
       = trace s ++ t.
Proof.
  destruct (bulk_add_items ext contents metadatas item_types s)
    as [[ids|e] s'] eqn:Hrun; simpl.
  { apply bulk_add_items_returns in Hrun
      as (_&_&embs&s1&w3&_&_&_&->). by eexists. }
  unfold bulk_add_items in Hrun.
  destruct (bool_decide (length contents = length metadatas)) eqn:H1;
    simpl in Hrun;
    [|unfold raise in Hrun; simplify_eq; exists []; by rewrite app_nil_r].
  destruct (bool_decide (length metadatas = length item_types)) eqn:H2;
    simpl in Hrun;
    [|unfold raise in Hrun; simplify_eq; exists []; by rewrite app_nil_r].
  apply bool_decide_eq_true in H1, H2.
  unfold mbind at 1, M_bind at 1 in Hrun.
  destruct (embeddings_loop ext [] contents s) as [[embs|e'] s1] eqn:Hemb.
  2:{ simplify_eq. by apply embeddings_loop_trace_grows in Hemb. }
  pose proof (embeddings_loop_length _ _ _ _ _ _ Hemb) as Hlen.
  apply embeddings_loop_trace_grows in Hemb as [t Ht].
  simpl in Hlen. unfold mbind at 1, M_bind at 1 in Hrun.
  rewrite (vectors_loop_eq _ [] [] item_types s1) in Hrun
    by (rewrite zip3_length by lia; lia).
  unfold upsert in Hrun. unfold_M. simpl in Hrun.
  destruct (index_upsert ext _ (world s1)) as [[[]|e''] w3]; simpl in Hrun.
  - rewrite _save_retrieval_cache_eq in Hrun. done.
  - simplify_eq. simpl. rewrite Ht, <-(assoc_L (++)). by eexists.
Qed.

Lemma get_retrivals_trace_grows query top_k filter_criteria s :
  ∃ t, trace (get_retrivals ext query top_k filter_criteria s).2
       = trace s ++ t.
Proof.
  unfold get_retrivals. unfold_M. simpl.
  destruct (retrieval_cache (self s) !! _) as [cached|].
  { exists []. by rewrite app_nil_r. }
  destruct (get_embedding ext query (world s)) as [[emb|e] w1];
    [|by eexists].
  simpl. destruct (index_query ext emb top_k true filter_criteria w1)
    as [[ms|e] w2]; simpl.
  - rewrite _save_retrieval_cache_eq. simpl. rewrite <-!(assoc_L (++)).
    by eexists.
  - rewrite <-!(assoc_L (++)). by eexists.
Qed.

Lemma delete_item_trace_grows item_id s :
  ∃ t, trace (delete_item ext item_id s).2 = trace s ++ t.
Proof.
  unfold delete_item. unfold_M. simpl.
  destruct (index_delete ext [item_id] (world s)) as [[[]|e] w1];
    [|by eexists].
  simpl. rewrite _save_retrieval_cache_eq. simpl. rewrite <-!(assoc_L (++)).
  by eexists.
Qed.

Lemma run_op_trace_grows o s :
  ∃ t, trace (run_op ext o s).2 = trace s ++ t.
Proof.
  destruct o as [c m t|cs ms ts|q k f|i|]; simpl.
  - destruct (add_item_trace_grows c m t s) as [t' Ht].
    destruct (add_item ext c m t s). by eexists.
  - destruct (bulk_add_items_trace_grows cs ms ts s) as [t' Ht].
    destruct (bulk_add_items ext cs ms ts s). by eexists.
  - destruct (get_retrivals_trace_grows q k f s) as [t' Ht].
    destruct (get_retrivals ext q k f s). by eexists.
  - destruct (delete_item_trace_grows i s) as [t' Ht].
    destruct (delete_item ext i s). by eexists.
  - rewrite clear_retrieval_cache_eq. by eexists.
Qed.

Lemma run_ops_trace_grows (os : list (operation V)) : ∀ s,
  ∃ t, trace (run_ops ext os s) = trace s ++ t.
Proof.
  induction os as [|o os IH]; intros s; simpl.
  - exists []. by rewrite app_nil_r.
  - destruct (IH (run_op ext o s).2) as [t2 ->].
    destruct (run_op_trace_grows o s) as [t1 ->].
    rewrite <-(assoc_L (++)). by eexists.
Qed.

(** Two [add_item] calls of one run return different ids, as long as
    [uuid4] did not give one id twice in that run. *)
Lemma add_item_ids_distinct content1 metadata1 item_type1 s id1 s1
    (later : list (operation V)) content2 metadata2 item_type2 id2 s2 :
  add_item ext content1 metadata1 item_type1 s = (Ok id1, s1) →
  add_item ext content2 metadata2 item_type2 (run_ops ext later s1)
    = (Ok id2, s2) →
  NoDup (uuids_of (trace s2)) →
  id1 ≠ id2.
Proof.
  intros Hrun1 Hrun2 Hnodup.
  apply add_item_returns in Hrun1 as (?&?&?&?&_&_&_&Hs1).
  apply add_item_returns in Hrun2 as (?&?&?&?&_&_&_&Hs2).
  destruct (run_ops_trace_grows later s1) as [t Ht].
  rewrite Hs2 in Hnodup. simpl in Hnodup. rewrite Ht, Hs1 in Hnodup.
  simpl in Hnodup. rewrite !uuids_of_app in Hnodup. simpl in Hnodup.
  rewrite <-!(assoc_L (++)) in Hnodup.
  apply NoDup_app in Hnodup as (_&_&Hnodup). simpl in Hnodup.
  apply NoDup_cons in Hnodup as [Hnotin _].
  intros ->. apply Hnotin. apply elem_of_app. right. by left.
Qed.

Lemma run_ops_app (os1 os2 : list (operation V)) s :
  run_ops ext (os1 ++ os2) s = run_ops ext os2 (run_ops ext os1 s).
Proof. revert s. induction os1 as [|o os1 IH]; intros s; simpl; auto. Qed.

(** An entry of the retrieval cache was there at the start or was stored
    since by a [get_retrivals] that went to the index. *)
Lemma cache_entry_origin (os : list (operation V)) : ∀ s key recs,
  retrieval_cache (self (run_ops ext os s)) !! key = Some recs →
  retrieval_cache (self s) !! key = Some recs ∨ stored_by ext os s key recs.
Proof.
  induction os as [|o os IH]; intros s key recs Hin; simpl in Hin; [auto|].
  apply IH in Hin as [Hin|(before&q&k&f&after&->&->&Hmiss&Hres)].
  2:{ right. by exists (o :: before), q, k, f, after. }
  destruct (run_op_cache o s) as [Heq|[Heq|(q&k&f&recs'&->&Hmiss&Hres&Heq)]];
    rewrite Heq in Hin.
  - auto.
  - by rewrite lookup_empty in Hin.
  - destruct (decide (_generate_retrieval_key (md5_hexdigest ext) q k f = key))
      as [<-|Hne].
    + rewrite lookup_insert_eq in Hin. simplify_eq.
      right. by exists [], q, k, f, os.
    + rewrite lookup_insert_ne in Hin by done. auto.
Qed.
End Step.

(** ** The snapshot *)

Section Snapshot.
Context {V Emb Score W : Type} `{!PyAny V}.
Variable ext : Collaborators V Emb Score W.
Implicit Types (s : state V Emb Score W) (w : W) (o : operation V).

(** [_load_retrieval_cache] never raises. *)
Lemma _load_retrieval_cache_ok s :
  ∃ s', _load_retrieval_cache ext s
        = (Ok (loaded_cache ext (retrieval_cache_file (self s)) (world s)), s')
        ∧ self s' = self s ∧ heap s' = heap s.
Proof.
  unfold _load_retrieval_cache, loaded_cache. unfold_M. simpl.
  destruct (os_path_exists ext _ (world s)) as [[[]|e] w1]; simpl;
    [|by eexists..].
  destruct (pickle_load ext _ w1) as [[c|e] w2]; by eexists.
Qed.

(** [__init__] succeeds as soon as the cache directory, the embedding
    cache and the index do; the retrieval cache is what the snapshot
    gives. *)
Lemma __init___ok index cache_directory s w1 w2 w3 w4 :
  os_makedirs ext cache_directory (world s) = (Ok (), w1) →
  EmbeddingCache ext cache_directory w1 = (Ok (), w2) →
  initialize_pinecone ext index w2 = (Ok (), w3) →
  Pinecone_Index ext index w3 = (Ok (), w4) →
  let file := os_path_join cache_directory "retrieval_cache.pkl" in
  ∃ s', __init__ ext index cache_directory s = (Ok (), s')
        ∧ self s' = {| index_name := index; cache_dir := cache_directory;
                       retrieval_cache_file := file;
                       retrieval_cache := loaded_cache ext file w4 |}
        ∧ heap s' = heap s.
Proof.
  intros H1 H2 H3 H4 file. unfold __init__.
  unfold mbind, M_bind, set_index_name, set_cache_dir,
    set_retrieval_cache_file, set_retrieval_cache, get_self, set_self, call.
  simpl. rewrite H1. simpl. rewrite H2. simpl. rewrite H3. simpl.
  rewrite H4. simpl.
  match goal with |- context [_load_retrieval_cache ext ?st] =>
    destruct (_load_retrieval_cache_ok st) as (s1&->&Hself&Hheap) end.
  simpl. eexists. split; [done|]. simpl. by rewrite Hself, Hheap.
Qed.

(** *** The outcome of [pickle.dump] is not looked at *)

Variables dump1 dump2 : string → rcache V Score → W → result unit * W.
Let ext1 := with_pickle_dump ext dump1.
Let ext2 := with_pickle_dump ext dump2.

Lemma embeddings_loop_dump contents : ∀ embeddings s,
  embeddings_loop ext1 embeddings contents s
  = embeddings_loop ext2 embeddings contents s.
Proof.
  induction contents as [|c cs IH]; intros acc s; simpl; [done|].
  unfold_M. simpl.
  destruct (get_embedding ext c (world s)) as [[e|e] w]; [apply IH|done].
Qed.

Lemma add_item_dump content metadata item_type s :
  same_but_world (add_item ext1 content metadata item_type s)
                 (add_item ext2 content metadata item_type s).
Proof.
  unfold add_item. unfold_M. simpl.
  destruct (get_embedding ext content (world s)) as [[emb|e] w1]; [|done].
  simpl. destruct (uuid4 ext w1) as [u w2]. simpl.
  destruct (index_upsert ext _ w2) as [[[]|e] w3]; [|done]. simpl.
  by rewrite !_save_retrieval_cache_eq.
Qed.

Lemma bulk_add_items_dump contents metadatas item_types s :
  same_but_world (bulk_add_items ext1 contents metadatas item_types s)
                 (bulk_add_items ext2 contents metadatas item_types s).
Proof.
  unfold bulk_add_items.
  destruct (bool_decide (length contents = length metadatas)) eqn:H1;
    simpl; [|done].
  destruct (bool_decide (length metadatas = length item_types)) eqn:H2;
    simpl; [|done].
  apply bool_decide_eq_true in H1, H2.
  unfold upsert. unfold_M. rewrite embeddings_loop_dump.
  destruct (embeddings_loop ext2 [] contents s) as [[embs|e'] s1] eqn:Hemb;
    [|done].
  pose proof (embeddings_loop_length _ _ _ _ _ _ Hemb) as Hlen.
  simpl in Hlen.
  rewrite (vectors_loop_eq _ [] [] item_types s1)
    by (rewrite zip3_length by lia; lia).
  simpl.
  destruct (index_upsert ext _ (world s1)) as [[[]|e''] w3]; [|done].
  simpl. by rewrite !_save_retrieval_cache_eq.
Qed.

Lemma get_retrivals_dump query top_k filter_criteria s :
  same_but_world (get_retrivals ext1 query top_k filter_criteria s)
                 (get_retrivals ext2 query top_k filter_criteria s).
Proof.
  unfold get_retrivals. unfold_M. simpl.
  destruct (retrieval_cache (self s) !! _) as [cached|]; [done|].
  destruct (get_embedding ext query (world s)) as [[emb|e] w1]; [|done].
  simpl. destruct (index_query ext emb top_k true filter_criteria w1)
    as [[ms|e] w2]; [|done].
  simpl. by rewrite !_save_retrieval_cache_eq.
Qed.

Lemma delete_item_dump item_id s :
  same_but_world (delete_item ext1 item_id s) (delete_item ext2 item_id s).
Proof.
  unfold delete_item. unfold_M. simpl.
  destruct (index_delete ext [item_id] (world s)) as [[[]|e] w1]; [|done].
  simpl. by rewrite !_save_retrieval_cache_eq.
Qed.

Lemma clear_retrieval_cache_dump s :
  same_but_world (clear_retrieval_cache ext1 s) (clear_retrieval_cache ext2 s).
Proof. by rewrite !clear_retrieval_cache_eq. Qed.

Lemma run_op_dump o s :
  same_but_world (run_op ext1 o s) (run_op ext2 o s).
Proof.
  destruct o as [c m t|cs ms ts|q k f|i|]; simpl.
  - destruct (add_item_dump c m t s) as (Hr&?&?&?).
    destruct (add_item ext1 c m t s), (add_item ext2 c m t s).
    simpl in *. by rewrite Hr.
  - destruct (bulk_add_items_dump cs ms ts s) as (Hr&?&?&?).
    destruct (bulk_add_items ext1 cs ms ts s),
      (bulk_add_items ext2 cs ms ts s).
    simpl in *. by rewrite Hr.
  - destruct (get_retrivals_dump q k f s) as (Hr&?&?&?).
    destruct (get_retrivals ext1 q k f s), (get_retrivals ext2 q k f s).
    simpl in *. by rewrite Hr.
  - destruct (delete_item_dump i s) as (Hr&?&?&?).
    destruct (delete_item ext1 i s), (delete_item ext2 i s).
    simpl in *. by rewrite Hr.
  - destruct (clear_retrieval_cache_dump s) as (Hr&?&?&?).
    destruct (clear_retrieval_cache ext1 s), (clear_retrieval_cache ext2 s).
    simpl in *. by rewrite Hr.
Qed.
End Snapshot.

(** * The claims *)

Section Claims.
Context {V Emb Score W : Type} `{!PyAny V}.
Variable ext : Collaborators V Emb Score W.
Implicit Types (s : state V Emb Score W) (w : W) (o : operation V).

(** C1: whatever calls were made before, once [add_item],
    [bulk_add_items] or [delete_item] returns, the retrieval cache is
    empty, so no fingerprint is in it.  Whatever calls are made later, a
    list that a later [get_retrivals] returns was either obtained from the
    index by that very call, or stored under its fingerprint by a
    [get_retrivals] made after the mutation that went to the index: it is
    never an entry from before the mutation. *)
Theorem mutation_invalidates_cache (os : list (operation V)) s0 o
    (r : returned V Score) s1 :
  is_mutation o = true →
  run_op ext o (run_ops ext os s0) = (Ok r, s1) →
  retrieval_cache (self s1) = ∅
  ∧ (∀ key, retrieval_cache (self s1) !! key = None)
  ∧ ∀ (later : list (operation V)) query top_k filter_criteria recs s2,
      let key := _generate_retrieval_key (md5_hexdigest ext) query top_k
                                         filter_criteria in
      let s := run_ops ext later s1 in
      get_retrivals ext query top_k filter_criteria s = (Ok recs, s2) →
      (retrieval_cache (self s) !! key = None
       ∧ ∃ embedding w1 matches w2,
           get_embedding ext query (world s) = (Ok embedding, w1)
           ∧ index_query ext embedding top_k true filter_criteria w1
             = (Ok matches, w2)
           ∧ recs = format_match <$> matches)
      ∨ stored_by ext later s1 key recs.
Proof.
  intros Hmut Hrun.
  pose proof (mutation_empties_cache ext _ _ _ _ Hmut Hrun) as Hempty.
  split; [done|]. split.
  { intros key. by rewrite Hempty, lookup_empty. }
  intros later q k f recs s2 key s Hget.
  apply get_retrivals_inv in Hget
    as [(c&Hc&?&->)|(Hmiss&[(e&?&_)|(emb&w1&ms&w2&?&?&?&_)])];
    simplify_eq.
  - right. apply cache_entry_origin in Hc as [Hc|Hc]; [|done].
    by rewrite Hempty, lookup_empty in Hc.
  - left. split; [done|]. by exists emb, w1, ms, w2.
Qed.

(** C2: two filters with the same items in a different order have the
    same fingerprint, for every query, every [top_k] and every digest
    function. *)
Theorem fingerprint_order_independent (md5 : string → string)
    (query : string) (top_k : Z) (filter1 filter2 : dict V) :
  dict_wf filter1 →
  filter1 ≡ₚ filter2 →
  _generate_retrieval_key md5 query top_k (Some filter1)
  = _generate_retrieval_key md5 query top_k (Some filter2).
Proof.
  intros Hwf Hperm. unfold _generate_retrieval_key, filter_str, dict_items.
  by rewrite (dict_bool_Permutation _ _ Hperm),
    (sorted_Permutation _ _ Hwf Hperm).
Qed.

(** C3: [bulk_add_items] on sequences that do not all have the same
    length raises [ValueError] (the spec's ValidationError) and leaves the
    whole state as it was: the trace gains no call (no embedding lookup,
    no upsert, no snapshot write), and [self], with its retrieval cache,
    the callers' dicts and the world are unchanged. *)
Theorem bulk_add_items_length_mismatch
    (contents : list string) (metadatas : list ref)
    (item_types : list string) s :
  ¬ (length contents = length metadatas
     ∧ length metadatas = length item_types) →
  bulk_add_items ext contents metadatas item_types s =
  (Raise (ValueError
     "Contents, metadatas, and item_types must have the same length"), s).
Proof.
  intros Hlen. unfold bulk_add_items.
  destruct (bool_decide (length contents = length metadatas)) eqn:H1;
    [|done].
  destruct (bool_decide (length metadatas = length item_types)) eqn:H2;
    [|done].
  apply bool_decide_eq_true in H1, H2. by destruct Hlen.
Qed.

(** C4: on a hit [get_retrivals] returns the cached list and leaves the
    state as it was, trace included: it asks neither the embedding cache
    nor the index.  On a miss, when the embedding lookup and the index
    query answer, it returns the matches mapped to [{id, score, metadata}],
    has stored that list under the fingerprint, and has made three calls:
    the lookup, the query with [top_k] and the filter, and the snapshot
    write of the cache with the new entry. *)
Theorem get_retrivals_hit_miss (query : string) (top_k : Z)
    (filter_criteria : option (dict V)) s :
  let key := _generate_retrieval_key (md5_hexdigest ext) query top_k
                                     filter_criteria in
  let file := retrieval_cache_file (self s) in
  (∀ cached,
     retrieval_cache (self s) !! key = Some cached →
     get_retrivals ext query top_k filter_criteria s = (Ok cached, s))
  ∧ (retrieval_cache (self s) !! key = None →
     ∀ embedding w1 matches w2,
       get_embedding ext query (world s) = (Ok embedding, w1) →
       index_query ext embedding top_k true filter_criteria w1
         = (Ok matches, w2) →
       let recommendations := format_match <$> matches in
       let cache := <[key := recommendations]> (retrieval_cache (self s)) in
       get_retrivals ext query top_k filter_criteria s =
       (Ok recommendations,
        {| self := with_cache (self s) cache;
           heap := heap s;
           world := (pickle_dump ext file cache w2).2;
           trace := trace s ++ [EvGetEmbedding query;
                                EvQuery embedding top_k true filter_criteria;
                                EvPickleDump file cache] |})).
Proof.
  intros key file. split.
  - intros cached Hhit. by apply get_retrivals_hit.
  - intros Hmiss emb w1 ms w2 Hemb Hq.
    apply (get_retrivals_miss ext _ _ _ s _ _ _ _ Hmiss Hemb Hq).
Qed.

(** C5: [add_item] returns [item_id] exactly when the embedding lookup
    answers, [uuid4] gives [item_id] and the upsert of the one vector
    [{id, embedding, metadata}] is accepted; [metadata] is then the
    caller's dict with ["content"] and ["item_type"] written into it, the
    retrieval cache is empty, and the calls made are the lookup, [uuid4],
    the upsert and the snapshot write of the empty cache, in that order.
    The id is the one [uuid4] gave in this call, so it differs from the id
    any later [add_item] returns, as long as [uuid4] gives no id twice. *)
Theorem add_item_success (content : string) (metadata : ref)
    (item_type : string) s (item_id : string) s' :
  (add_item ext content metadata item_type s = (Ok item_id, s') ↔
   ∃ embedding w1 w2 w3,
     let file := retrieval_cache_file (self s) in
     let v := {| v_id := item_id; v_values := embedding;
                 v_metadata := merged (heap_get (heap s) metadata)
                                      content item_type |} in
     get_embedding ext content (world s) = (Ok embedding, w1)
     ∧ uuid4 ext w1 = (item_id, w2)
     ∧ index_upsert ext [v] w2 = (Ok (), w3)
     ∧ s' = {| self := with_cache (self s) ∅;
               heap := merge_into (heap s) metadata content item_type;
               world := (pickle_dump ext file ∅ w3).2;
               trace := trace s ++ [EvGetEmbedding content; EvUuid4 item_id;
                                    EvUpsert [v]; EvPickleDump file ∅] |})
  ∧ (add_item ext content metadata item_type s = (Ok item_id, s') →
     ∀ (later : list (operation V)) content2 metadata2 item_type2 id2 s2,
       add_item ext content2 metadata2 item_type2 (run_ops ext later s')
         = (Ok id2, s2) →
       NoDup (uuids_of (trace s2)) →
       item_id ≠ id2).
Proof.
  split; [apply add_item_returns|].
  intros Hrun later c2 m2 t2 id2 s2 Hrun2 Hnodup.
  by eapply add_item_ids_distinct.
Qed.

(** C6: the ids [bulk_add_items] returns are ["item_0"], ...,
    ["item_{n-1}"] for a batch of [n], whatever the state and the items,
    and the call does not ask [uuid4]; so the ids of a batch are all
    among the ids of any batch that is at least as long, returned by a
    call before or after it. *)
Theorem bulk_add_items_positional_ids (contents : list string)
    (metadatas : list ref) (item_types : list string) s
    (ids : list string) s' :
  bulk_add_items ext contents metadatas item_types s = (Ok ids, s') →
  ids = item_ids (length contents)
  ∧ length ids = length contents
  ∧ uuids_of (trace s') = uuids_of (trace s)
  ∧ ∀ contents2 metadatas2 item_types2 s2 ids2 s2',
      bulk_add_items ext contents2 metadatas2 item_types2 s2
        = (Ok ids2, s2') →
      length contents ≤ length contents2 →
      ids `prefix_of` ids2 ∧ ∀ item_id, item_id ∈ ids → item_id ∈ ids2.
Proof.
  intros Hrun. apply bulk_add_items_returns in Hrun
    as (_&_&embs&s1&w3&_&_&->&->).
  split; [done|]. split.
  { unfold item_ids. by rewrite length_fmap, length_seq. }
  split.
  { simpl. rewrite !uuids_of_app, uuids_of_get_embedding. simpl.
    by rewrite app_nil_r. }
  intros cs2 ms2 ts2 s2 ids2 s2' Hrun2 Hle.
  apply bulk_add_items_returns in Hrun2 as (_&_&_&_&_&_&_&->&_).
  pose proof (item_ids_prefix _ _ Hle) as Hpre.
  split; [done|]. intros i Hi. destruct Hpre as [k ->].
  apply elem_of_app. by left.
Qed.
(** C7: [_save_retrieval_cache] returns normally whatever [pickle.dump]
    does, and no operation looks at the outcome of the write: run with
    two file systems that answer the write differently (one that fails,
    one that succeeds), an operation returns the same value or raises the
    same exception, and leaves the same engine, retrieval cache included,
    the same dicts and the same trace. *)
Theorem persistence_failure_swallowed
    (dump1 dump2 : string → rcache V Score → W → result unit * W) o s :
  let out1 := run_op (with_pickle_dump ext dump1) o s in
  let out2 := run_op (with_pickle_dump ext dump2) o s in
  (_save_retrieval_cache (with_pickle_dump ext dump1) s).1 = Ok ()
  ∧ out1.1 = out2.1
  ∧ self out1.2 = self out2.2
  ∧ heap out1.2 = heap out2.2
  ∧ trace out1.2 = trace out2.2.
Proof.
  simpl. split; [by rewrite _save_retrieval_cache_eq|].
  apply run_op_dump.
Qed.

(** C8: when the cache directory, the embedding cache and the index are
    set up without an exception, [__init__] returns, and the retrieval
    cache of the engine is what the snapshot holds; it is empty when the
    snapshot file is missing, when loading it raises, and when looking
    for it raises. *)
Theorem construction_loads_cache (index cache_directory : string) s
    w1 w2 w3 w4 :
  os_makedirs ext cache_directory (world s) = (Ok (), w1) →
  EmbeddingCache ext cache_directory w1 = (Ok (), w2) →
  initialize_pinecone ext index w2 = (Ok (), w3) →
  Pinecone_Index ext index w3 = (Ok (), w4) →
  let file := os_path_join cache_directory "retrieval_cache.pkl" in
  ∃ s', __init__ ext index cache_directory s = (Ok (), s')
    ∧ retrieval_cache_file (self s') = file
    ∧ (∀ w5, os_path_exists ext file w4 = (Ok false, w5) →
             retrieval_cache (self s') = ∅)
    ∧ (∀ w5 e w6, os_path_exists ext file w4 = (Ok true, w5) →
                  pickle_load ext file w5 = (Raise e, w6) →
                  retrieval_cache (self s') = ∅)
    ∧ (∀ e w5, os_path_exists ext file w4 = (Raise e, w5) →
               retrieval_cache (self s') = ∅)
    ∧ (∀ w5 cache w6, os_path_exists ext file w4 = (Ok true, w5) →
                      pickle_load ext file w5 = (Ok cache, w6) →
                      retrieval_cache (self s') = cache).
Proof.
  intros H1 H2 H3 H4 file.
  destruct (__init___ok ext index cache_directory s w1 w2 w3 w4 H1 H2 H3 H4)
    as (s'&Hrun&Hself&_).
  exists s'. split; [done|]. rewrite Hself. simpl. split; [done|].
  unfold loaded_cache. fold file. repeat split.
  - intros w5 ->. done.
  - intros w5 e w6 -> ->. done.
  - intros e w5 ->. done.
  - intros w5 c w6 -> ->. done.
Qed.

(** C9: the empty filter and no filter have the same fingerprint, for
    every digest function; a list [get_retrivals] returned for the one is
    what it returns for the other right after, from the cache. *)
Theorem empty_filter_fingerprint (md5 : string → string)
    (query : string) (top_k : Z) :
  _generate_retrieval_key md5 query top_k (Some ([] : dict V))
  = _generate_retrieval_key md5 query top_k None
  ∧ (∀ s recs s',
       get_retrivals ext query top_k None s = (Ok recs, s') →
       get_retrivals ext query top_k (Some []) s' = (Ok recs, s'))
  ∧ (∀ s recs s',
       get_retrivals ext query top_k (Some []) s = (Ok recs, s') →
       get_retrivals ext query top_k None s' = (Ok recs, s')).
Proof.
  split; [done|]. split; intros s recs s' Hrun;
    apply get_retrivals_cached in Hrun; by apply get_retrivals_hit.
Qed.

(** C10, as amended: [add_item] writes ["content"] and ["item_type"] into
    the dict object the caller passed, whether it then returns or raises;
    a [bulk_add_items] that returns has written the content and the type
    of each item into the dict passed at its position, one item after the
    other, so a dict holds the values of the last position it was passed
    at (of its own position, when the dicts are different objects).  No
    other key of any dict is changed, and no dict that was not passed. *)
Theorem metadata_written_in_place :
  (∀ content metadata item_type s,
     let h' := heap (add_item ext content metadata item_type s).2 in
     dict_get "content" (heap_get h' metadata) = Some (py_of_str content)
     ∧ dict_get "item_type" (heap_get h' metadata)
       = Some (py_of_str item_type)
     ∧ (∀ r k, k ≠ "content" → k ≠ "item_type" →
               dict_get k (heap_get h' r) = dict_get k (heap_get (heap s) r))
     ∧ (∀ r, r ≠ metadata → h' !! r = heap s !! r))
  ∧ (∀ contents metadatas item_types s ids s',
       bulk_add_items ext contents metadatas item_types s = (Ok ids, s') →
       (∀ i c m t,
          contents !! i = Some c → metadatas !! i = Some m →
          item_types !! i = Some t →
          (∀ j, i < j → metadatas !! j ≠ Some m) →
          dict_get "content" (heap_get (heap s') m) = Some (py_of_str c)
          ∧ dict_get "item_type" (heap_get (heap s') m)
            = Some (py_of_str t))
       ∧ (∀ r k, k ≠ "content" → k ≠ "item_type" →
                 dict_get k (heap_get (heap s') r)
                 = dict_get k (heap_get (heap s) r))
       ∧ (∀ r, r ∉ metadatas → heap s' !! r = heap s !! r)).
Proof.
  split.
  - intros c m t s. simpl. rewrite add_item_heap. unfold merge_into.
    rewrite heap_get_insert_eq, merged_content, merged_item_type.
    repeat split.
    + intros r k ??. by apply (merge_into_other_key (heap s) m c t r k).
    + intros r ?. by rewrite lookup_insert_ne.
  - intros cs ms ts s ids s' Hrun.
    apply bulk_add_items_returns in Hrun as (_&_&embs&s1&w3&_&_&_&->).
    simpl. repeat split.
    + by eapply merge_all_last.
    + by eapply merge_all_last.
    + intros r k ??. by apply merge_all_other_key.
    + intros r ?. by apply merge_all_other_ref.
Qed.
End Claims.

(** * Worked examples *)

Section Examples.
Import Demo.

Example md5_empty :
  MD5.hexdigest EmptyString = "d41d8cd98f00b204e9800998ecf8427e".
Proof. vm_compute. reflexivity. Qed.

Example md5_abc : MD5.hexdigest "abc" = "900150983cd24fb0d6963f7d28e17f72".
Proof. vm_compute. reflexivity. Qed.

Example md5_two_blocks :
  MD5.hexdigest
    "12345678901234567890123456789012345678901234567890123456789012345678901234567890"
  = "57edf4a22be3c955ac49da2e2107b67a".
Proof. vm_compute. reflexivity. Qed.

Example key_no_filter :
  _generate_retrieval_key MD5.hexdigest "hello world" 5 None
  = MD5.hexdigest "hello world|5|None".
Proof. reflexivity. Qed.

Example key_filter :
  filter_str (Some [("b", SInt 2); ("a", SInt 1)]) = "[('a', 1), ('b', 2)]"
  ∧ _generate_retrieval_key MD5.hexdigest "q" 3
      (Some [("b", SInt 2); ("a", SInt 1)])
    = "914fce07bcea7f88a6e395cf08346dee".
Proof. split; vm_compute; reflexivity. Qed.

Example repr_str_quotes :
  repr_str "it's" = String dquote ("it's" +:+ String dquote EmptyString)
  ∧ repr_str "a\b" = "'a\\b'".
Proof. split; vm_compute; reflexivity. Qed.

Example os_path_join_default :
  os_path_join "./embedding_cache" "retrieval_cache.pkl"
  = "./embedding_cache/retrieval_cache.pkl"
  ∧ os_path_join "cache/" "retrieval_cache.pkl" = "cache/retrieval_cache.pkl".
Proof. split; reflexivity. Qed.

(** Add, query, delete, query again. *)
Example end_to_end :
  let s1 := stocked in
  let out2 := get_retrivals demo "hello world" 1 None s1 in
  let out3 := delete_item demo (demo_uuid 0) out2.2 in
  let out4 := get_retrivals demo "hello world" 1 None out3.2 in
  out2.1 = Ok [ {| r_id := demo_uuid 0; r_score := 1%Z;
                   r_metadata := [("content", SStr "hello world");
                                  ("item_type", SStr "article")] |} ]
  ∧ out3.1 = Ok ()
  ∧ out4.1 = Ok [].
Proof. repeat split; vm_compute; reflexivity. Qed.

(** ** Witnesses *)

Lemma mutation_invalidates_cache_witness :
  let s0 := started heap0 in
  let before := [GetRetrivals "hello world" 5 None] in
  let o := AddItem "hello world" 0 "article" in
  retrieval_cache (self (run_ops demo before s0))
    !! "dcc701b9c40bc42643e09272ec1b5f1e" = Some []
  ∧ retrieval_cache (self (run_op demo o (run_ops demo before s0)).2) = ∅.
Proof.
  intros s0 before o. split; [vm_compute; reflexivity|].
  refine (proj1 (mutation_invalidates_cache demo before s0 o
                   (RId (demo_uuid 0)) _ _ _)).
  - reflexivity.
  - vm_compute. reflexivity.
Defined.

Lemma fingerprint_order_independent_witness :
  _generate_retrieval_key MD5.hexdigest "q" 3
    (Some [("a", SInt 1); ("b", SInt 2)])
  = _generate_retrieval_key MD5.hexdigest "q" 3
      (Some [("b", SInt 2); ("a", SInt 1)]).
Proof.
  apply fingerprint_order_independent; [|apply perm_swap].
  unfold dict_wf. refine (bool_decide_unpack _ _). vm_compute. exact I.
Defined.

Lemma bulk_add_items_length_mismatch_witness :
  let s := started heap0 in
  bulk_add_items demo ["a"; "b"; "c"] [0; 1] ["x"; "y"; "z"] s =
  (Raise (ValueError
     "Contents, metadatas, and item_types must have the same length"), s).
Proof.
  intros s. apply bulk_add_items_length_mismatch. simpl. lia.
Defined.

Lemma get_retrivals_hit_miss_witness :
  let recs := [ {| r_id := demo_uuid 0; r_score := 1%Z;
                   r_metadata := [("content", SStr "hello world");
                                  ("item_type", SStr "article")] |} ] in
  let out1 := get_retrivals demo "hello world" 5 None stocked in
  let out2 := get_retrivals demo "hello world" 5 None out1.2 in
  out1.1 = Ok recs
  ∧ trace out1.2
    = trace stocked
      ++ [EvGetEmbedding "hello world";
          EvQuery (embed "hello world") 5 true None;
          EvPickleDump "./embedding_cache/retrieval_cache.pkl"
                       {[ "dcc701b9c40bc42643e09272ec1b5f1e" := recs ]}]
  ∧ out2 = (Ok recs, out1.2).
Proof.
  intros recs out1 out2.
  assert (get_retrivals demo "hello world" 5 None stocked = out1) as Hout1
    by reflexivity.
  rewrite (proj2 (get_retrivals_hit_miss demo "hello world" 5 None stocked)
             ltac:(vm_compute; reflexivity)
             (embed "hello world") (world stocked)
             (demo_query (embed "hello world") 5 None
                         (index_store (world stocked)))
             (world stocked)
             ltac:(reflexivity) ltac:(vm_compute; reflexivity)) in Hout1.
  split; [rewrite <-Hout1; vm_compute; reflexivity|].
  split; [rewrite <-Hout1; vm_compute; reflexivity|].
  assert (retrieval_cache (self out1.2)
            !! _generate_retrieval_key (md5_hexdigest demo) "hello world" 5
                                       None = Some recs) as Hhit
    by (vm_compute; reflexivity).
  exact (proj1 (get_retrivals_hit_miss demo "hello world" 5 None out1.2)
               recs Hhit).
Defined.

Lemma add_item_success_witness :
  let out1 := add_item demo "hello world" 0 "article" (started heap0) in
  let later := [GetRetrivals "hello world" 5 None] in
  let out2 := add_item demo "second" 1 "note" (run_ops demo later out1.2) in
  out1.1 = Ok (demo_uuid 0)
  ∧ retrieval_cache (self out1.2) = ∅
  ∧ heap out1.2 !! 0 = Some [("content", SStr "hello world");
                            ("item_type", SStr "article")]
  ∧ out2.1 = Ok (demo_uuid 1)
  ∧ demo_uuid 0 ≠ demo_uuid 1.
Proof.
  intros out1 later out2.
  assert (add_item demo "hello world" 0 "article" (started heap0)
          = (Ok (demo_uuid 0), out1.2)) as Hrun1 by (vm_compute; reflexivity).
  assert (add_item demo "second" 1 "note" (run_ops demo later out1.2)
          = (Ok (demo_uuid 1), out2.2)) as Hrun2 by (vm_compute; reflexivity).
  destruct (add_item_success demo "hello world" 0 "article" (started heap0)
              (demo_uuid 0) out1.2) as [Hiff Hnew].
  destruct (proj1 Hiff Hrun1) as (emb&w1&w2&w3&_&_&_&Hs').
  split; [vm_compute; reflexivity|]. rewrite Hs'.
  split; [reflexivity|]. split; [vm_compute; reflexivity|].
  split; [vm_compute; reflexivity|].
  refine (Hnew Hrun1 later _ _ _ _ _ Hrun2 _).
  refine (bool_decide_unpack _ _). vm_compute. exact I.
Defined.

Lemma bulk_add_items_positional_ids_witness :
  let out1 := bulk_add_items demo ["a"; "b"] [0; 1] ["x"; "y"]
                             (started heap0) in
  let out2 := bulk_add_items demo ["c"; "d"; "e"] [0; 1; 2] ["x"; "y"; "z"]
                             out1.2 in
  out1.1 = Ok ["item_0"; "item_1"]
  ∧ out2.1 = Ok ["item_0"; "item_1"; "item_2"]
  ∧ ["item_0"; "item_1"] `prefix_of` ["item_0"; "item_1"; "item_2"].
Proof.
  intros out1 out2.
  assert (bulk_add_items demo ["a"; "b"] [0; 1] ["x"; "y"] (started heap0)
          = (Ok ["item_0"; "item_1"], out1.2)) as Hrun1
    by (vm_compute; reflexivity).
  assert (bulk_add_items demo ["c"; "d"; "e"] [0; 1; 2] ["x"; "y"; "z"] out1.2
          = (Ok ["item_0"; "item_1"; "item_2"], out2.2)) as Hrun2
    by (vm_compute; reflexivity).
  destruct (bulk_add_items_positional_ids demo _ _ _ _ _ _ Hrun1)
    as (_&_&_&Hover).
  destruct (Hover _ _ _ _ _ _ Hrun2 ltac:(simpl; lia)) as [Hpre _].
  split; [vm_compute; reflexivity|]. split; [vm_compute; reflexivity|done].
Defined.

Lemma persistence_failure_swallowed_witness :
  let s := {| self := self (started heap0); heap := heap0;
              world := world_read_only; trace := [] |} in
  let out := run_op demo (AddItem "hello world" 0 "article") s in
  out.1 = Ok (RId (demo_uuid 0))
  ∧ retrieval_cache (self out.2) = ∅
  ∧ files (world out.2) = ∅.
Proof.
  intros s out.
  destruct (persistence_failure_swallowed demo
              (pickle_dump demo) (λ _ _ w, (Ok (), w))
              (AddItem "hello world" 0 "article") s) as (_&Hr&Hself&_&_).
  split; [exact Hr|]. split; [|vm_compute; reflexivity].
  change (retrieval_cache (self out.2)) with
    (retrieval_cache
       (self (run_op (with_pickle_dump demo (pickle_dump demo))
                     (AddItem "hello world" 0 "article") s).2)).
  rewrite Hself. vm_compute. reflexivity.
Defined.

Lemma construction_loads_cache_witness :
  (∃ s', __init__ demo "recommendation-index" "./embedding_cache"
                  (state0 heap0) = (Ok (), s')
         ∧ retrieval_cache (self s') = ∅)
  ∧ (∃ s', __init__ demo "recommendation-index" "./embedding_cache"
                    {| self := blank; heap := heap0; world := world_damaged;
                       trace := [] |} = (Ok (), s')
           ∧ retrieval_cache (self s') = ∅).
Proof.
  split.
  - destruct (construction_loads_cache demo "recommendation-index"
                "./embedding_cache" (state0 heap0)
                world0 world0 world0 world0
                eq_refl eq_refl eq_refl eq_refl)
      as (s'&Hrun&_&Hmissing&_&_&_).
    exists s'. split; [exact Hrun|]. by eapply Hmissing.
  - destruct (construction_loads_cache demo "recommendation-index"
                "./embedding_cache"
                {| self := blank; heap := heap0; world := world_damaged;
                   trace := [] |}
                world_damaged world_damaged world_damaged world_damaged
                eq_refl eq_refl eq_refl eq_refl)
      as (s'&Hrun&_&_&Hdamaged&_&_).
    exists s'. split; [exact Hrun|]. by eapply Hdamaged.
Defined.

Lemma empty_filter_fingerprint_witness :
  let recs := [ {| r_id := demo_uuid 0; r_score := 1%Z;
                   r_metadata := [("content", SStr "hello world");
                                  ("item_type", SStr "article")] |} ] in
  let out1 := get_retrivals demo "hello world" 5 None stocked in
  let out2 := get_retrivals demo "hello world" 5 (Some []) out1.2 in
  _generate_retrieval_key MD5.hexdigest "hello world" 5 (Some ([] : dict scalar))
  = "dcc701b9c40bc42643e09272ec1b5f1e"
  ∧ out1 = (Ok recs, out1.2)
  ∧ out2 = (Ok recs, out1.2).
Proof.
  intros recs out1 out2.
  destruct (empty_filter_fingerprint demo MD5.hexdigest "hello world" 5)
    as (Hkey&Hshare&_).
  split; [rewrite Hkey; vm_compute; reflexivity|].
  assert (get_retrivals demo "hello world" 5 None stocked
          = (Ok recs, out1.2)) as Hout1 by (vm_compute; reflexivity).
  split; [exact Hout1|]. exact (Hshare stocked recs out1.2 Hout1).
Defined.

(** C10 as stated fails when one dict is passed at two positions: the
    call returns, position 0 has content ["a"] and the dict [0], and that
    dict ends with the content ["b"] and the type ["y"] of position 1. *)
Lemma bulk_add_items_aliased_counterexample :
  let contents := ["a"; "b"] in
  let metadatas := [0; 0] in
  let item_types := ["x"; "y"] in
  let out := bulk_add_items demo contents metadatas item_types
                            (started heap0) in
  out.1 = Ok ["item_0"; "item_1"]
  ∧ contents !! 0 = Some "a"
  ∧ metadatas !! 0 = Some 0
  ∧ item_types !! 0 = Some "x"
  ∧ dict_get "content" (heap_get (heap out.2) 0) = Some (SStr "b")
  ∧ dict_get "content" (heap_get (heap out.2) 0) ≠ Some (py_of_str "a")
  ∧ dict_get "item_type" (heap_get (heap out.2) 0) ≠ Some (py_of_str "x").
Proof.
  repeat split; try (vm_compute; reflexivity); vm_compute; discriminate.
Qed.

Lemma metadata_written_in_place_witness :
  let out := bulk_add_items demo ["a"; "b"] [0; 1] ["x"; "y"]
                            (started heap0) in
  dict_get "content" (heap_get (heap out.2) 0) = Some (SStr "a")
  ∧ dict_get "item_type" (heap_get (heap out.2) 1) = Some (SStr "y")
  ∧ dict_get "lang" (heap_get (heap out.2) 1) = Some (SStr "en").
Proof.
  intros out.
  assert (bulk_add_items demo ["a"; "b"] [0; 1] ["x"; "y"] (started heap0)
          = (Ok ["item_0"; "item_1"], out.2)) as Hrun
    by (vm_compute; reflexivity).
  destruct (proj2 (metadata_written_in_place demo) _ _ _ _ _ _ Hrun)
    as (Hset&Hkeys&_).
  split; [|split].
  - refine (proj1 (Hset 0 "a" 0 "x" eq_refl eq_refl eq_refl _)).
    intros [|[|j]] Hj; [lia|done..].
  - refine (proj2 (Hset 1 "b" 1 "y" eq_refl eq_refl eq_refl _)).
    intros [|[|j]] Hj; [lia|lia|done].
  - rewrite Hkeys by done. vm_compute. reflexivity.
Defined.
End Examples.

(** * Further properties *)

(** ** What each method does, case by case *)

Section Outcomes.
Context {V Emb Score W : Type} `{!PyAny V}.
Variable ext : Collaborators V Emb Score W.
Implicit Types (s : state V Emb Score W) (w : W) (o : operation V).

Lemma add_item_eq content metadata item_type s :
  add_item ext content metadata item_type s =
  let h := merge_into (heap s) metadata content item_type in
  let file := retrieval_cache_file (self s) in
  match get_embedding ext content (world s) with
  | (Raise e, w1) =>
      (Raise e, {| self := self s; heap := h; world := w1;
                   trace := trace s ++ [EvGetEmbedding content] |})
  | (Ok embedding, w1) =>
      let u := (uuid4 ext w1).1 in
      let v := {| v_id := u; v_values := embedding;
                  v_metadata := merged (heap_get (heap s) metadata)
                                       content item_type |} in
      match index_upsert ext [v] (uuid4 ext w1).2 with
      | (Raise e, w3) =>
          (Raise e, {| self := self s; heap := h; world := w3;
                       trace := trace s ++ [EvGetEmbedding content; EvUuid4 u;
                                            EvUpsert [v]] |})
      | (Ok _, w3) =>
          (Ok u, {| self := with_cache (self s) ∅; heap := h;
                    world := (pickle_dump ext file ∅ w3).2;
                    trace := trace s ++ [EvGetEmbedding content; EvUuid4 u;
                                         EvUpsert [v]; EvPickleDump file ∅] |})
      end
  end.
Proof.
  unfold add_item, merge_into, merged, with_cache. unfold_M. simpl.
  rewrite heap_get_insert_eq, insert_insert_eq.
  destruct (get_embedding ext content (world s)) as [[emb|e] w1]; [|done].
  simpl. destruct (uuid4 ext w1) as [u w2]. simpl.
  unfold deref; simpl. rewrite heap_get_insert_eq.
  destruct (index_upsert ext _ w2) as [[[]|e] w3]; simpl.
  - rewrite _save_retrieval_cache_eq. simpl. by rewrite <-!(assoc_L (++)).
  - by rewrite <-!(assoc_L (++)).
Qed.

Lemma delete_item_eq item_id s :
  delete_item ext item_id s =
  let file := retrieval_cache_file (self s) in
  match index_delete ext [item_id] (world s) with
  | (Raise e, w1) =>
      (Raise e, {| self := self s; heap := heap s; world := w1;
                   trace := trace s ++ [EvDelete [item_id]] |})
  | (Ok _, w1) =>
      (Ok (), {| self := with_cache (self s) ∅; heap := heap s;
                 world := (pickle_dump ext file ∅ w1).2;
                 trace := trace s ++ [EvDelete [item_id];
                                      EvPickleDump file ∅] |})
  end.
Proof.
  unfold delete_item, with_cache. unfold_M. simpl.
  destruct (index_delete ext [item_id] (world s)) as [[[]|e] w1]; [|done].
  simpl. rewrite _save_retrieval_cache_eq. simpl.
  by rewrite <-!(assoc_L (++)).
Qed.

Lemma get_retrivals_eq query top_k filter_criteria s :
  get_retrivals ext query top_k filter_criteria s =
  let key := _generate_retrieval_key (md5_hexdigest ext) query top_k
                                     filter_criteria in
  let file := retrieval_cache_file (self s) in
  match retrieval_cache (self s) !! key with
  | Some cached => (Ok cached, s)
  | None =>
      match get_embedding ext query (world s) with
      | (Raise e, w1) =>
          (Raise e, {| self := self s; heap := heap s; world := w1;
                       trace := trace s ++ [EvGetEmbedding query] |})
      | (Ok embedding, w1) =>
          match index_query ext embedding top_k true filter_criteria w1 with
          | (Raise e, w2) =>
              (Raise e,
               {| self := self s; heap := heap s; world := w2;
                  trace := trace s
                    ++ [EvGetEmbedding query;
                        EvQuery embedding top_k true filter_criteria] |})
          | (Ok matches, w2) =>
              let recs := format_match <$> matches in
              let cache := <[key := recs]> (retrieval_cache (self s)) in
              (Ok recs,
               {| self := with_cache (self s) cache; heap := heap s;
                  world := (pickle_dump ext file cache w2).2;
                  trace := trace s
                    ++ [EvGetEmbedding query;
                        EvQuery embedding top_k true filter_criteria;
                        EvPickleDump file cache] |})
          end
      end
  end.
Proof.
  simpl.
  destruct (retrieval_cache (self s) !! _) as [cached|] eqn:Hlook.
  { by apply get_retrivals_hit. }
  destruct (get_embedding ext query (world s)) as [[emb|e] w1] eqn:Hemb.
  2:{ unfold get_retrivals. unfold_M. by rewrite Hlook, Hemb. }
  destruct (index_query ext emb top_k true filter_criteria w1)
    as [[ms|e] w2] eqn:Hq.
  - apply (get_retrivals_miss ext _ _ _ s _ _ _ _ Hlook Hemb Hq).
  - unfold get_retrivals. unfold_M. rewrite Hlook, Hemb. simpl.
    rewrite Hq. simpl. by rewrite <-!(assoc_L (++)).
Qed.

(** The first loop of [bulk_add_items] stops at the first lookup that
    raises. *)
Lemma embeddings_loop_raises contents : ∀ embeddings s e s',
  embeddings_loop ext embeddings contents s = (Raise e, s') →
  ∃ looked_up content rest,
    contents = looked_up ++ content :: rest
    ∧ self s' = self s ∧ heap s' = heap s
    ∧ trace s' = trace s ++ (EvGetEmbedding <$> looked_up ++ [content]).
Proof.
  induction contents as [|c cs IH]; intros acc s e s' Hrun; simpl in Hrun.
  - unfold_M. done.
  - unfold_M. destruct (get_embedding ext c (world s)) as [[emb|e'] w].
    + apply IH in Hrun as (done_&c'&rest&->&Hself&Hheap&Htrace).
      simpl in *. exists (c :: done_), c', rest.
      rewrite Htrace, <-(assoc_L (++)). done.
    + simplify_eq. by exists [], c, cs.
Qed.

Lemma bulk_add_items_eq contents metadatas item_types s :
  length contents = length metadatas →
  length metadatas = length item_types →
  bulk_add_items ext contents metadatas item_types s =
  match embeddings_loop ext [] contents s with
  | (Raise e, s1) => (Raise e, s1)
  | (Ok embeddings, s1) =>
      let file := retrieval_cache_file (self s1) in
      let h := merge_all (heap s1) contents metadatas item_types in
      let vectors :=
        batch_vectors h 0 (zip3 contents metadatas embeddings) in
      match index_upsert ext vectors (world s1) with
      | (Raise e, w3) =>
          (Raise e, {| self := self s1; heap := h; world := w3;
                       trace := trace s1 ++ [EvUpsert vectors] |})
      | (Ok _, w3) =>
          (Ok (item_ids (length contents)),
           {| self := with_cache (self s1) ∅; heap := h;
              world := (pickle_dump ext file ∅ w3).2;
              trace := trace s1 ++ [EvUpsert vectors;
                                    EvPickleDump file ∅] |})
      end
  end.
Proof.
  intros H1 H2. unfold bulk_add_items.
  rewrite !bool_decide_eq_true_2 by done. simpl.
  unfold mbind at 1, M_bind at 1.
  destruct (embeddings_loop ext [] contents s) as [[embs|e] s1] eqn:Hemb;
    [|done].
  pose proof (embeddings_loop_length _ _ _ _ _ _ Hemb) as Hlen.
  simpl in Hlen. unfold mbind at 1, M_bind at 1.
  rewrite (vectors_loop_eq _ [] [] item_types s1)
    by (rewrite zip3_length by lia; lia).
  simpl. rewrite zip3_fst, zip3_snd by lia.
  unfold upsert. unfold_M. simpl.
  rewrite (deref_imap _ _ 0), (vr_id_imap _ 0), zip3_length by lia.
  fold (item_ids (length contents)).
  destruct (index_upsert ext _ (world s1)) as [[[]|e] w3]; simpl; [|done].
  rewrite _save_retrieval_cache_eq. simpl. unfold with_cache.
  by rewrite <-!(assoc_L (++)).
Qed.

Lemma batch_vectors_lookup (h : gmap ref (dict V)) zipped : ∀ i j v,
  batch_vectors (Emb:=Emb) h i zipped !! j = Some v →
  ∃ c m e, zipped !! j = Some (c, m, e)
           ∧ v = {| v_id := "item_" +:+ pretty (i + j); v_values := e;
                    v_metadata := heap_get h m |}.
Proof.
  induction zipped as [|[[c m] e] zipped IH]; intros i j v Hv; [done|].
  destruct j as [|j]; simpl in *.
  - simplify_eq. exists c, m, e. by rewrite Nat.add_0_r.
  - apply IH in Hv as (c'&m'&e'&?&->). exists c', m', e'.
    split; [done|]. do 3 f_equal. lia.
Qed.

Lemma batch_vectors_length (h : gmap ref (dict V)) zipped : ∀ i,
  length (batch_vectors (Emb:=Emb) h i zipped) = length zipped.
Proof.
  induction zipped as [|[[c m] e] zipped IH]; intros i; simpl; auto.
Qed.

Lemma zip3_lookup {A B C} (la : list A) (lb : list B) (lc : list C) :
  ∀ i a b c,
  zip3 la lb lc !! i = Some (a, b, c) →
  la !! i = Some a ∧ lb !! i = Some b ∧ lc !! i = Some c.
Proof.
  revert lb lc. induction la as [|a0 la IH]; intros [|b0 lb] [|c0 lc] i a b c;
    try done.
  destruct i as [|i]; simpl.
  - by intros [= -> -> ->].
  - apply IH.
Qed.
End Outcomes.

(** ** The calls of one operation *)

Section Calls.
Context {V Emb Score W : Type} `{!PyAny V}.
Variable ext : Collaborators V Emb Score W.
Implicit Types (s : state V Emb Score W) (w : W) (o : operation V).

Ltac forall_events :=
  repeat first [ apply Forall_nil_2
               | apply Forall_cons; split; [done|]
               | apply Forall_app; split
               | apply Forall_fmap, Forall_true; done ].

Lemma run_op_summary o s : ∃ t, op_summary ext o s t.
Proof.
  unfold op_summary. destruct o as [c m ty|cs ms ts|q k f|i|]; simpl.
  - rewrite add_item_eq. simpl.
    destruct (get_embedding ext c (world s)) as [[emb|e] w1]; simpl.
    2:{ eexists. split; [done|]. split; [forall_events|].
        left. split; [done|forall_events]. }
    destruct (index_upsert ext _ _) as [[[]|e] w3]; simpl.
    + eexists. split; [done|]. split; [forall_events|]. right.
      eexists _, [_; _; _], ∅. repeat split; forall_events.
    + eexists. split; [done|]. split; [forall_events|].
      left. split; [done|forall_events].
  - destruct (decide (length cs = length ms ∧ length ms = length ts))
      as [[H1 H2]|Hne].
    2:{ exists []. unfold bulk_add_items.
        assert (bool_decide (length cs = length ms)
                && bool_decide (length ms = length ts) = false) as ->.
        { apply andb_false_iff.
          destruct (decide (length cs = length ms));
            [right|left]; apply bool_decide_eq_false; naive_solver. }
        simpl. unfold raise. simpl. rewrite app_nil_r.
        split; [done|]. split; [forall_events|]. left. split; [done|].
        forall_events. }
    rewrite bulk_add_items_eq by done.
    destruct (embeddings_loop ext [] cs s) as [[embs|e] s1] eqn:Hemb.
    2:{ apply embeddings_loop_raises in Hemb
          as (done_&c&rest&->&Hself&Hheap&Htrace).
        simpl. eexists. split; [exact Htrace|].
        split; [forall_events|]. left. split; [done|forall_events]. }
    pose proof (embeddings_loop_frame _ _ _ _ _ _ Hemb) as [Hself _].
    pose proof (embeddings_loop_trace _ _ _ _ _ _ Hemb) as Htrace.
    simpl. destruct (index_upsert ext _ (world s1)) as [[[]|e] w3]; simpl.
    + rewrite Htrace, Hself, <-(assoc_L (++)).
      eexists. split; [done|]. split; [forall_events|]. right.
      eexists _, ((EvGetEmbedding <$> cs) ++ [_]), ∅.
      rewrite <-(assoc_L (++)). repeat split; forall_events.
    + rewrite Htrace, Hself, <-(assoc_L (++)).
      eexists. split; [done|]. split; [forall_events|].
      left. split; [done|forall_events].
  - rewrite get_retrivals_eq. simpl.
    destruct (retrieval_cache (self s) !! _) as [cached|]; simpl.
    { exists []. rewrite app_nil_r. split; [done|].
      split; [forall_events|]. left. split; [done|forall_events]. }
    destruct (get_embedding ext q (world s)) as [[emb|e] w1]; simpl.
    2:{ eexists. split; [done|]. split; [forall_events|].
        left. split; [done|forall_events]. }
    destruct (index_query ext emb k true f w1) as [[ms|e] w2]; simpl.
    + eexists. split; [done|]. split; [forall_events|]. right.
      eexists _, [_; _], _. repeat split; forall_events.
    + eexists. split; [done|]. split; [forall_events|].
      left. split; [done|forall_events].
  - rewrite delete_item_eq. simpl.
    destruct (index_delete ext [i] (world s)) as [[[]|e] w1]; simpl.
    + eexists. split; [done|]. split; [forall_events|]. right.
      eexists _, [_], ∅. repeat split; forall_events.
    + eexists. split; [done|]. split; [forall_events|].
      left. split; [done|forall_events].
  - rewrite clear_retrieval_cache_eq. simpl.
    eexists. split; [done|]. split; [forall_events|]. right.
    eexists _, [], ∅. repeat split; forall_events.
Qed.

(** No operation changes the name of the index, the cache directory or
    the snapshot file. *)
Lemma run_op_attributes o s :
  let s' := (run_op ext o s).2 in
  index_name (self s') = index_name (self s)
  ∧ cache_dir (self s') = cache_dir (self s)
  ∧ retrieval_cache_file (self s') = retrieval_cache_file (self s).
Proof.
  simpl.
  destruct (run_op_summary o s) as (t&_&_&[[-> _]|(r&t0&c&_&_&->&_)]); done.
Qed.

Lemma run_ops_attributes (os : list (operation V)) : ∀ s,
  let s' := run_ops ext os s in
  index_name (self s') = index_name (self s)
  ∧ cache_dir (self s') = cache_dir (self s)
  ∧ retrieval_cache_file (self s') = retrieval_cache_file (self s).
Proof.
  induction os as [|o os IH]; intros s; simpl; [done|].
  destruct (IH (run_op ext o s).2) as (->&->&->). apply run_op_attributes.
Qed.
End Calls.

(** * Further properties of the engine *)

Section Extras.
Context {V Emb Score W : Type} `{!PyAny V}.
Variable ext : Collaborators V Emb Score W.
Implicit Types (s : state V Emb Score W) (w : W) (o : operation V).

Lemma is_dump_dumps_to (file : string) (ev : event V Emb Score) :
  is_dump ev = false → dumps_to file ev.
Proof. by destruct ev. Qed.

(** X1: [clear_retrieval_cache] always returns; it empties the retrieval
    cache, makes one call, the write of the empty snapshot, and leaves the
    index, the callers' dicts and the other attributes alone.  Whatever
    [get_retrivals] returns next comes from the index. *)
Theorem clear_retrieval_cache_clears s :
  let out := clear_retrieval_cache ext s in
  out.1 = Ok ()
  ∧ self out.2 = with_cache (self s) ∅
  ∧ heap out.2 = heap s
  ∧ trace out.2 = trace s ++ [EvPickleDump (retrieval_cache_file (self s)) ∅]
  ∧ ∀ query top_k filter_criteria recs s2,
      get_retrivals ext query top_k filter_criteria out.2 = (Ok recs, s2) →
      ∃ embedding w1 matches w2,
        get_embedding ext query (world out.2) = (Ok embedding, w1)
        ∧ index_query ext embedding top_k true filter_criteria w1
          = (Ok matches, w2)
        ∧ recs = format_match <$> matches.
Proof.
  simpl. rewrite clear_retrieval_cache_eq. simpl. repeat split.
  intros q k f recs s2 Hget.
  apply get_retrivals_inv in Hget
    as [(c&Hc&_)|(_&[(e&?&_)|(emb&w1&ms&w2&?&?&?&_)])].
  - simpl in Hc. by rewrite lookup_empty in Hc.
  - done.
  - simplify_eq. by exists emb, w1, ms, w2.
Qed.

(** X2: an operation that raises has not touched [self] and has not
    written the snapshot: the retrieval cache is not invalidated, and a
    list that was cached is still what [get_retrivals] returns, without
    any call. *)
Theorem failed_operation_keeps_cache o s e s' :
  run_op ext o s = (Raise e, s') →
  self s' = self s
  ∧ (∃ t, trace s' = trace s ++ t ∧ Forall (λ ev, is_dump ev = false) t)
  ∧ ∀ query top_k filter_criteria cached,
      retrieval_cache (self s)
        !! _generate_retrieval_key (md5_hexdigest ext) query top_k
                                   filter_criteria = Some cached →
      get_retrivals ext query top_k filter_criteria s' = (Ok cached, s').
Proof.
  intros Hrun.
  destruct (run_op_summary ext o s)
    as (t&Ht&_&[[Hself Hnodump]|(r&t0&c&Hok&_)]); rewrite Hrun in *;
    simpl in *; [|done].
  split; [done|]. split; [by exists t|].
  intros q k f cached Hc. apply get_retrivals_hit. by rewrite Hself.
Qed.

(** X3: a query that returned is answered from the cache when it is
    repeated: the same list, no call, the state as it was. *)
Theorem get_retrivals_repeat query top_k filter_criteria s recs s' :
  get_retrivals ext query top_k filter_criteria s = (Ok recs, s') →
  get_retrivals ext query top_k filter_criteria s' = (Ok recs, s').
Proof.
  intros Hrun. apply get_retrivals_hit. by eapply get_retrivals_cached.
Qed.



(** X5: no operation changes [index_name], [cache_dir] or
    [retrieval_cache_file]; every snapshot write of a run goes to the
    one file the engine had at its start. *)
Theorem run_keeps_snapshot_file (os : list (operation V)) s :
  let s' := run_ops ext os s in
  index_name (self s') = index_name (self s)
  ∧ cache_dir (self s') = cache_dir (self s)
  ∧ retrieval_cache_file (self s') = retrieval_cache_file (self s)
  ∧ ∃ t, trace s' = trace s ++ t
         ∧ Forall (dumps_to (retrieval_cache_file (self s))) t.
Proof.
  simpl. destruct (run_ops_attributes ext os s) as (?&?&?).
  do 3 (split; [done|]). clear.
  revert s. induction os as [|o os IH]; intros s; simpl.
  { exists []. by rewrite app_nil_r. }
  destruct (IH (run_op ext o s).2) as (t2&->&Ht2).
  destruct (run_op_attributes ext o s) as (_&_&Hfile). simpl in Hfile.
  rewrite Hfile in Ht2.
  destruct (run_op_summary ext o s)
    as (t1&->&_&[[_ Hnodump]|(r&t0&c&_&->&_&Hnodump)]).
  - exists (t1 ++ t2). split; [by rewrite <-!(assoc_L (++))|].
    apply Forall_app. split; [|done].
    eapply Forall_impl; [done|]. apply is_dump_dumps_to.
  - exists ((t0 ++ [EvPickleDump (retrieval_cache_file (self s)) c]) ++ t2).
    split; [by rewrite <-!(assoc_L (++))|].
    repeat (apply Forall_app; split); [|by repeat constructor|done].
    eapply Forall_impl; [done|]. apply is_dump_dumps_to.
Qed.

(** X6: the calls an operation makes are among those of its row in
    [may_call].  So [get_retrivals] issues no upsert and no delete,
    only [add_item] asks [uuid4], and no operation reads the snapshot or
    sets up the index again. *)
Theorem operations_call_only o s :
  ∃ t, trace (run_op ext o s).2 = trace s ++ t
       ∧ Forall (λ ev, may_call o ev = true) t.
Proof.
  destruct (run_op_summary ext o s) as (t&Ht&Hcalls&_). by exists t.
Qed.

(** X7: an operation either leaves [self] as it was and does not write
    the snapshot, or it returns and its last call is the write, to the
    snapshot file, of exactly the retrieval cache it leaves in memory;
    it never writes the snapshot twice. *)
Theorem snapshot_write_through o s :
  let out := run_op ext o s in
  ∃ t, trace out.2 = trace s ++ t
    ∧ ((self out.2 = self s ∧ Forall (λ ev, is_dump ev = false) t)
       ∨ ∃ r t0,
           out.1 = Ok r
           ∧ t = t0 ++ [EvPickleDump (retrieval_cache_file (self out.2))
                                     (retrieval_cache (self out.2))]
           ∧ Forall (λ ev, is_dump ev = false) t0).
Proof.
  simpl.
  destruct (run_op_summary ext o s)
    as (t&Ht&_&[[Hself Hnodump]|(r&t0&c&Hok&->&Hself&Hnodump)]).
  - exists t. auto.
  - eexists. split; [done|]. right. exists r, t0. rewrite Hself. done.
Qed.

(** X8: an entry of the retrieval cache after a run was there at the
    start, or is the answer of the index, formatted, to a query that a
    [get_retrivals] of the run made on a miss: no entry is made up. *)
Theorem cache_entry_provenance (os : list (operation V)) s key recs :
  retrieval_cache (self (run_ops ext os s)) !! key = Some recs →
  retrieval_cache (self s) !! key = Some recs
  ∨ ∃ before query top_k filter_criteria after embedding w1 matches w2,
      os = before ++ GetRetrivals query top_k filter_criteria :: after
      ∧ key = _generate_retrieval_key (md5_hexdigest ext) query top_k
                                      filter_criteria
      ∧ get_embedding ext query (world (run_ops ext before s))
        = (Ok embedding, w1)
      ∧ index_query ext embedding top_k true filter_criteria w1
        = (Ok matches, w2)
      ∧ recs = format_match <$> matches.
Proof.
  intros Hin.
  apply cache_entry_origin in Hin
    as [?|(before&q&k&f&after&->&->&Hmiss&Hres)]; [auto|].
  right.
  destruct (get_retrivals ext q k f (run_ops ext before s))
    as [r s1] eqn:Hget.
  simpl in Hres. subst r.
  apply get_retrivals_inv in Hget
    as [(c&Hc&_)|(_&[(e&?&_)|(emb&w1&ms&w2&?&?&?&_)])].
  - by rewrite Hmiss in Hc.
  - done.
  - simplify_eq. by exists before, q, k, f, after, emb, w1, ms, w2.
Qed.
End Extras.

(** ** Failures *)

Section Failures.
Context {V Emb Score W : Type} `{!PyAny V}.
Variable ext : Collaborators V Emb Score W.
Implicit Types (s : state V Emb Score W) (w : W) (o : operation V).

(** X9: a [bulk_add_items] that raises has not touched [self].  Either
    the lengths differ and nothing happened; or an embedding lookup
    raised, the lookups stopped there, no dict was written and no upsert
    was issued; or the upsert raised, after every lookup was made and
    every dict was written. *)
Theorem bulk_add_items_failure (contents : list string)
    (metadatas : list ref) (item_types : list string) s e s' :
  bulk_add_items ext contents metadatas item_types s = (Raise e, s') →
  self s' = self s
  ∧ ((¬ (length contents = length metadatas
         ∧ length metadatas = length item_types)
      ∧ s' = s)
     ∨ (∃ looked_up content rest,
          contents = looked_up ++ content :: rest
          ∧ heap s' = heap s
          ∧ trace s' = trace s
                       ++ (EvGetEmbedding <$> looked_up ++ [content]))
     ∨ (∃ vectors,
          heap s' = merge_all (heap s) contents metadatas item_types
          ∧ length vectors = length contents
          ∧ trace s' = trace s ++ (EvGetEmbedding <$> contents)
                       ++ [EvUpsert vectors])).
Proof.
  intros Hrun.
  destruct (decide (length contents = length metadatas
                    ∧ length metadatas = length item_types))
    as [[H1 H2]|Hne].
  2:{ unfold bulk_add_items in Hrun.
      assert (bool_decide (length contents = length metadatas)
              && bool_decide (length metadatas = length item_types) = false)
        as Hguard.
      { apply andb_false_iff.
        destruct (decide (length contents = length metadatas));
          [right|left]; apply bool_decide_eq_false; naive_solver. }
      rewrite Hguard in Hrun. simpl in Hrun. unfold raise in Hrun.
      simplify_eq. auto. }
  rewrite bulk_add_items_eq in Hrun by done.
  destruct (embeddings_loop ext [] contents s) as [[embs|e'] s1] eqn:Hemb.
  2:{ simplify_eq.
      apply embeddings_loop_raises in Hemb
        as (done_&c&rest&->&Hself&Hheap&Htrace).
      split; [done|]. right. left. by exists done_, c, rest. }
  pose proof (embeddings_loop_frame _ _ _ _ _ _ Hemb) as [Hself Hheap].
  pose proof (embeddings_loop_trace _ _ _ _ _ _ Hemb) as Htrace.
  pose proof (embeddings_loop_length _ _ _ _ _ _ Hemb) as Hlen.
  simpl in Hrun, Hlen.
  destruct (index_upsert ext _ (world s1)) as [[[]|e''] w3]; simplify_eq.
  simpl. split; [done|]. right. right. eexists.
  rewrite Hheap, Htrace, <-(assoc_L (++)). split; [done|]. split; [|done].
  rewrite batch_vectors_length, zip3_length; lia.
Qed.


(** X11: [add_item] raises exactly when the embedding lookup or the
    upsert raises, and passes that exception on.  The caller's dict is
    written in both cases; when the upsert raises, [uuid4] was asked and
    the id it gave is lost. *)
Theorem add_item_failure (content : string) (metadata : ref)
    (item_type : string) s e s' :
  add_item ext content metadata item_type s = (Raise e, s') ↔
  (∃ w1,
     get_embedding ext content (world s) = (Raise e, w1)
     ∧ s' = {| self := self s;
               heap := merge_into (heap s) metadata content item_type;
               world := w1;
               trace := trace s ++ [EvGetEmbedding content] |})
  ∨ (∃ embedding w1 w3,
       let u := (uuid4 ext w1).1 in
       let v := {| v_id := u; v_values := embedding;
                   v_metadata := merged (heap_get (heap s) metadata)
                                        content item_type |} in
       get_embedding ext content (world s) = (Ok embedding, w1)
       ∧ index_upsert ext [v] (uuid4 ext w1).2 = (Raise e, w3)
       ∧ s' = {| self := self s;
                 heap := merge_into (heap s) metadata content item_type;
                 world := w3;
                 trace := trace s ++ [EvGetEmbedding content; EvUuid4 u;
                                      EvUpsert [v]] |}).
Proof.
  rewrite add_item_eq. simpl.
  destruct (get_embedding ext content (world s)) as [[emb|e'] w1].
  2:{ split.
      - intros [= <- <-]. left. by exists w1.
      - intros [(w1'&[= <- <-]&->)|(?&?&?&?&_)]; done. }
  destruct (index_upsert ext _ (uuid4 ext w1).2) as [[[]|e'] w3] eqn:Hup.
  - split; [done|].
    intros [(?&?&_)|(emb'&w1'&w3'&[= <- <-]&Hup'&_)]; [done|].
    rewrite Hup in Hup'. done.
  - split.
    + intros [= <- <-]. right. by exists emb, w1, w3.
    + intros [(?&?&_)|(emb'&w1'&w3'&[= <- <-]&Hup'&->)]; [done|].
      rewrite Hup in Hup'. by simplify_eq.
Qed.

(** X12: [delete_item] asks the index to delete the one id.  It returns
    exactly when the index accepts, and has then emptied the retrieval
    cache and written the empty snapshot; it raises exactly when the
    index raises, and has then changed nothing but the world. *)
Theorem delete_item_outcome (item_id : string) s :
  (∀ s', delete_item ext item_id s = (Ok (), s') ↔
     ∃ w1, index_delete ext [item_id] (world s) = (Ok (), w1)
           ∧ s' = {| self := with_cache (self s) ∅; heap := heap s;
                     world := (pickle_dump ext (retrieval_cache_file (self s))
                                           ∅ w1).2;
                     trace := trace s
                       ++ [EvDelete [item_id];
                           EvPickleDump (retrieval_cache_file (self s)) ∅] |})
  ∧ (∀ e s', delete_item ext item_id s = (Raise e, s') ↔
       ∃ w1, index_delete ext [item_id] (world s) = (Raise e, w1)
             ∧ s' = {| self := self s; heap := heap s; world := w1;
                       trace := trace s ++ [EvDelete [item_id]] |}).
Proof.
  rewrite delete_item_eq. simpl.
  destruct (index_delete ext [item_id] (world s)) as [[[]|e'] w1].
  - split.
    + intros s'. split.
      * intros [= <-]. by exists w1.
      * by intros (w1'&[= <-]&->).
    + intros e s'. split; [done|]. by intros (?&?&_).
  - split.
    + intros s'. split; [done|]. by intros (?&?&_).
    + intros e s'. split.
      * intros [= <- <-]. by exists w1.
      * by intros (w1'&[= <- <-]&->).
Qed.
End Failures.

(** ** Construction *)

Section Construction.
Context {V Emb Score W : Type} `{!PyAny V}.
Variable ext : Collaborators V Emb Score W.
Implicit Types (s : state V Emb Score W) (w : W).

Lemma _load_retrieval_cache_calls s :
  ∃ w, _load_retrieval_cache ext s
       = (Ok (loaded_cache ext (retrieval_cache_file (self s)) (world s)),
          {| self := self s; heap := heap s; world := w;
             trace := trace s
               ++ snapshot_reads ext (retrieval_cache_file (self s))
                                 (world s) |}).
Proof.
  unfold _load_retrieval_cache, loaded_cache, snapshot_reads. unfold_M. simpl.
  destruct (os_path_exists ext _ (world s)) as [[[]|e] w1]; simpl;
    [|by eexists..].
  destruct (pickle_load ext _ w1) as [[c|e] w2]; eexists;
    by rewrite <-(assoc_L (++)).
Qed.

(** X13: [__init__] raises only what [os.makedirs], [EmbeddingCache],
    [initialize_pinecone] or the Pinecone client raised, the first of
    them that fails; the calls after it are not made, the snapshot is
    not looked for, [retrieval_cache_file] and [retrieval_cache] are not
    assigned, and the callers' dicts are as before. *)
Theorem construction_failure (index cache_directory : string) s e s' :
  __init__ ext index cache_directory s = (Raise e, s') →
  retrieval_cache (self s') = retrieval_cache (self s)
  ∧ retrieval_cache_file (self s') = retrieval_cache_file (self s)
  ∧ heap s' = heap s
  ∧ ((∃ w1,
        os_makedirs ext cache_directory (world s) = (Raise e, w1)
        ∧ trace s' = trace s ++ [EvMakedirs cache_directory])
     ∨ (∃ w1 w2,
          os_makedirs ext cache_directory (world s) = (Ok (), w1)
          ∧ EmbeddingCache ext cache_directory w1 = (Raise e, w2)
          ∧ trace s' = trace s ++ [EvMakedirs cache_directory;
                                   EvEmbeddingCache cache_directory])
     ∨ (∃ w1 w2 w3,
          os_makedirs ext cache_directory (world s) = (Ok (), w1)
          ∧ EmbeddingCache ext cache_directory w1 = (Ok (), w2)
          ∧ initialize_pinecone ext index w2 = (Raise e, w3)
          ∧ trace s' = trace s ++ [EvMakedirs cache_directory;
                                   EvEmbeddingCache cache_directory;
                                   EvInitializePinecone index])
     ∨ (∃ w1 w2 w3 w4,
          os_makedirs ext cache_directory (world s) = (Ok (), w1)
          ∧ EmbeddingCache ext cache_directory w1 = (Ok (), w2)
          ∧ initialize_pinecone ext index w2 = (Ok (), w3)
          ∧ Pinecone_Index ext index w3 = (Raise e, w4)
          ∧ trace s' = trace s ++ setup_events index cache_directory)).
Proof.
  unfold __init__.
  unfold mbind, M_bind, set_index_name, set_cache_dir,
    set_retrieval_cache_file, set_retrieval_cache, get_self, set_self, call.
  simpl.
  destruct (os_makedirs ext cache_directory (world s)) as [[[]|e1] w1]
    eqn:H1; simpl.
  2:{ intros [= <- <-]. simpl. do 3 (split; [done|]). left. by exists w1. }
  destruct (EmbeddingCache ext cache_directory w1) as [[[]|e2] w2] eqn:H2;
    simpl.
  2:{ intros [= <- <-]. simpl. do 3 (split; [done|]). right. left.
      exists w1, w2. by rewrite <-!(assoc_L (++)). }
  destruct (initialize_pinecone ext index w2) as [[[]|e3] w3] eqn:H3;
    simpl.
  2:{ intros [= <- <-]. simpl. do 3 (split; [done|]). right. right. left.
      exists w1, w2, w3. by rewrite <-!(assoc_L (++)). }
  destruct (Pinecone_Index ext index w3) as [[[]|e4] w4] eqn:H4; simpl.
  2:{ intros [= <- <-]. simpl. do 3 (split; [done|]). right. right. right.
      exists w1, w2, w3, w4. unfold setup_events.
      by rewrite <-!(assoc_L (++)). }
  match goal with |- context [_load_retrieval_cache ext ?st] =>
    destruct (_load_retrieval_cache_calls st) as (w5&->) end.
  done.
Qed.

(** X14: a construction whose set-up calls succeed makes them in the
    order [os.makedirs], [EmbeddingCache], [initialize_pinecone],
    Pinecone client, then looks for the snapshot and loads it only if it
    is there.  It makes no other call (it writes nothing and does not
    query the index), sets [index_name] and [cache_dir] to its arguments
    and leaves the callers' dicts alone. *)
Theorem construction_calls (index cache_directory : string) s w1 w2 w3 w4 :
  os_makedirs ext cache_directory (world s) = (Ok (), w1) →
  EmbeddingCache ext cache_directory w1 = (Ok (), w2) →
  initialize_pinecone ext index w2 = (Ok (), w3) →
  Pinecone_Index ext index w3 = (Ok (), w4) →
  let file := os_path_join cache_directory "retrieval_cache.pkl" in
  ∃ s', __init__ ext index cache_directory s = (Ok (), s')
    ∧ index_name (self s') = index
    ∧ cache_dir (self s') = cache_directory
    ∧ heap s' = heap s
    ∧ trace s' = trace s ++ setup_events index cache_directory
                         ++ snapshot_reads ext file w4.
Proof.
  intros H1 H2 H3 H4 file. unfold __init__.
  unfold mbind, M_bind, set_index_name, set_cache_dir,
    set_retrieval_cache_file, set_retrieval_cache, get_self, set_self, call.
  simpl. rewrite H1. simpl. rewrite H2. simpl. rewrite H3. simpl.
  rewrite H4. simpl.
  match goal with |- context [_load_retrieval_cache ext ?st] =>
    destruct (_load_retrieval_cache_calls st) as (w5&->) end.
  simpl. eexists. split; [done|]. simpl. do 3 (split; [done|]).
  unfold setup_events. by rewrite <-!(assoc_L (++)).
Qed.
End Construction.

(** ** Batches, again *)

Section Batches.
Context {V Emb Score W : Type} `{!PyAny V}.
Variable ext : Collaborators V Emb Score W.
Implicit Types (s : state V Emb Score W) (w : W) (o : operation V).

(** X15: a [bulk_add_items] that returns has made one embedding lookup
    per content, in order, then one upsert with one vector per item, then
    the snapshot write.  The ids of the vectors are the ids returned, and
    the metadata of each vector is the dict passed at its position as it
    is when the call returns: two positions that were passed one dict
    object are upserted with the same metadata. *)
Theorem bulk_add_items_upsert (contents : list string)
    (metadatas : list ref) (item_types : list string) s
    (ids : list string) s' :
  bulk_add_items ext contents metadatas item_types s = (Ok ids, s') →
  ∃ vectors,
    trace s' = trace s ++ (EvGetEmbedding <$> contents)
               ++ [EvUpsert vectors;
                   EvPickleDump (retrieval_cache_file (self s)) ∅]
    ∧ v_id <$> vectors = ids
    ∧ (∀ i v, vectors !! i = Some v →
         ∃ m, metadatas !! i = Some m
              ∧ v_metadata v = heap_get (heap s') m)
    ∧ (∀ i j vi vj m,
         metadatas !! i = Some m → metadatas !! j = Some m →
         vectors !! i = Some vi → vectors !! j = Some vj →
         v_metadata vi = v_metadata vj).
Proof.
  intros Hrun.
  apply bulk_add_items_returns in Hrun as (H1&H2&embs&s1&w3&Hemb&_&->&->).
  pose proof (embeddings_loop_length _ _ _ _ _ _ Hemb) as Hlen.
  simpl in Hlen. eexists. split; [done|]. simpl.
  assert (∀ i v,
    batch_vectors (merge_all (heap s) contents metadatas item_types) 0
                  (zip3 contents metadatas embs) !! i = Some v →
    v_id v = "item_" +:+ pretty i
    ∧ ∃ m, metadatas !! i = Some m
           ∧ v_metadata v
             = heap_get (merge_all (heap s) contents metadatas item_types) m)
    as Hvec.
  { intros i v Hv.
    apply batch_vectors_lookup in Hv as (c&m&e&Hz&->).
    apply zip3_lookup in Hz as (_&Hm&_). simpl. split; [done|]. by exists m. }
  split; [|split].
  - apply list_eq. intros i. unfold item_ids.
    rewrite !list_lookup_fmap.
    destruct (batch_vectors _ 0 _ !! i) as [v|] eqn:Hv; simpl.
    + destruct (Hvec i v Hv) as [-> _].
      apply lookup_lt_Some in Hv.
      rewrite batch_vectors_length, zip3_length in Hv by lia.
      by rewrite lookup_seq_lt.
    + apply lookup_ge_None in Hv.
      rewrite batch_vectors_length, zip3_length in Hv by lia.
      by rewrite lookup_seq_ge.
  - intros i v Hv. by destruct (Hvec i v Hv) as [_ ?].
  - intros i j vi vj m Hi Hj Hvi Hvj.
    destruct (Hvec i vi Hvi) as [_ (mi&Hmi&->)].
    destruct (Hvec j vj Hvj) as [_ (mj&Hmj&->)]. congruence.
Qed.

(** X16: the ids [bulk_add_items] returns for one batch are pairwise
    distinct. *)
Theorem bulk_add_items_ids_distinct (contents : list string)
    (metadatas : list ref) (item_types : list string) s
    (ids : list string) s' :
  bulk_add_items ext contents metadatas item_types s = (Ok ids, s') →
  NoDup ids.
Proof.
  intros Hrun.
  apply bulk_add_items_returns in Hrun as (_&_&embs&s1&w3&_&_&->&_).
  apply item_ids_NoDup.
Qed.

(** X17: an empty batch passes the length check and looks up no
    embedding, but still calls upsert, with no vector; when the index
    accepts, the retrieval cache is emptied and written and [[]] is
    returned, and when it raises, the exception is passed on. *)
Theorem bulk_add_items_empty s :
  let file := retrieval_cache_file (self s) in
  (∀ w, index_upsert ext [] (world s) = (Ok (), w) →
     bulk_add_items ext [] [] [] s =
     (Ok [], {| self := with_cache (self s) ∅; heap := heap s;
                world := (pickle_dump ext file ∅ w).2;
                trace := trace s ++ [EvUpsert []; EvPickleDump file ∅] |}))
  ∧ (∀ e w, index_upsert ext [] (world s) = (Raise e, w) →
       bulk_add_items ext [] [] [] s =
       (Raise e, {| self := self s; heap := heap s; world := w;
                    trace := trace s ++ [EvUpsert []] |})).
Proof.
  simpl. rewrite bulk_add_items_eq by done. simpl. unfold mret, M_ret.
  simpl. split.
  - by intros w ->.
  - by intros e w ->.
Qed.

Lemma run_op_heap o s r :
  r ∉ refs_of o → heap (run_op ext o s).2 !! r = heap s !! r.
Proof.
  destruct o as [c m ty|cs ms ts|q k f|i|]; simpl; intros Hr.
  - rewrite add_item_eq. simpl. apply not_elem_of_cons in Hr as [Hne _].
    destruct (get_embedding ext c (world s)) as [[emb|e] w1]; simpl.
    2:{ unfold merge_into. by rewrite lookup_insert_ne. }
    destruct (index_upsert ext _ _) as [[[]|e] w3]; simpl;
      unfold merge_into; by rewrite lookup_insert_ne.
  - destruct (bulk_add_items ext cs ms ts s) as [[ids|e] s'] eqn:Hrun; simpl.
    + apply bulk_add_items_returns in Hrun as (_&_&embs&s1&w3&_&_&_&->).
      simpl. by apply merge_all_other_ref.
    + destruct (decide (length cs = length ms ∧ length ms = length ts))
        as [[H1 H2]|Hne].
      2:{ unfold bulk_add_items in Hrun.
          assert (bool_decide (length cs = length ms)
                  && bool_decide (length ms = length ts) = false) as Hguard.
          { apply andb_false_iff.
            destruct (decide (length cs = length ms));
              [right|left]; apply bool_decide_eq_false; naive_solver. }
          rewrite Hguard in Hrun. simpl in Hrun. unfold raise in Hrun.
          by simplify_eq. }
      rewrite bulk_add_items_eq in Hrun by done.
      destruct (embeddings_loop ext [] cs s) as [[embs|e'] s1] eqn:Hemb.
      2:{ simplify_eq.
          apply embeddings_loop_frame in Hemb as [_ Hheap]. by rewrite Hheap. }
      apply embeddings_loop_frame in Hemb as [_ Hheap]. simpl in Hrun.
      destruct (index_upsert ext _ (world s1)) as [[[]|e''] w3];
        simplify_eq. simpl. rewrite Hheap. by apply merge_all_other_ref.
  - rewrite get_retrivals_eq. simpl.
    destruct (retrieval_cache (self s) !! _); [done|].
    destruct (get_embedding ext q (world s)) as [[emb|e] w1]; [|done].
    by destruct (index_query ext emb k true f w1) as [[ms|e] w2].
  - rewrite delete_item_eq. simpl.
    by destruct (index_delete ext [i] (world s)) as [[[]|e] w1].
  - by rewrite clear_retrieval_cache_eq.
Qed.

(** X18: the engine writes only into the dict objects it is passed: a
    dict that none of the [add_item] and [bulk_add_items] calls of a run
    was given is the same after the run, whether the calls returned or
    raised; [get_retrivals], [delete_item] and [clear_retrieval_cache]
    write into no dict at all. *)
Theorem dicts_frame (os : list (operation V)) s r :
  (∀ o, o ∈ os → r ∉ refs_of o) →
  heap (run_ops ext os s) !! r = heap s !! r.
Proof.
  revert s. induction os as [|o os IH]; intros s Hr; simpl; [done|].
  rewrite IH by (intros o' Ho'; apply Hr; by right).
  apply run_op_heap, Hr. by left.
Qed.
End Batches.

(** ** The string that is hashed *)

Lemma string_app_cons (x : ascii) (a b : string) :
  String x a +:+ b = String x (a +:+ b).
Proof. reflexivity. Qed.

Lemma string_app_nil (b : string) : EmptyString +:+ b = b.
Proof. reflexivity. Qed.

Lemma string_app_assoc (a b c : string) : (a +:+ b) +:+ c = a +:+ b +:+ c.
Proof.
  induction a as [|x a IH]; [done|]. by rewrite !string_app_cons, IH.
Qed.

Lemma string_app_length (a b : string) :
  String.length (a +:+ b) = String.length a + String.length b.
Proof.
  induction a as [|x a IH]; [done|]. rewrite string_app_cons. simpl.
  by rewrite IH.
Qed.

Lemma string_app_inv_tail (a b t : string) : a +:+ t = b +:+ t → a = b.
Proof.
  revert b. induction a as [|x a IH]; intros [|y b] Heq;
    rewrite ?string_app_cons, ?string_app_nil in Heq.
  - done.
  - apply (f_equal String.length) in Heq. simpl in Heq.
    rewrite string_app_length in Heq. lia.
  - apply (f_equal String.length) in Heq. simpl in Heq.
    rewrite string_app_length in Heq. lia.
  - injection Heq as -> Heq. f_equal. by apply IH.
Qed.

Lemma no_bar_app (a b : string) : no_bar (a +:+ b) = no_bar a && no_bar b.
Proof.
  induction a as [|x a IH]; [done|]. rewrite string_app_cons. simpl.
  by rewrite IH, andb_assoc.
Qed.

(** A string is cut at its last ["|"] in one way only. *)
Lemma bar_split (q q' a a' : string) :
  no_bar a = true → no_bar a' = true →
  q +:+ "|" +:+ a = q' +:+ "|" +:+ a' → q = q' ∧ a = a'.
Proof.
  intros Ha Ha'. revert q'.
  induction q as [|x q IH]; intros [|y q'] Heq;
    rewrite ?string_app_cons, ?string_app_nil in Heq.
  - by injection Heq as ->.
  - injection Heq as <- ->. rewrite no_bar_app in Ha.
    simpl in Ha. by rewrite andb_false_r in Ha.
  - injection Heq as -> <-. rewrite no_bar_app in Ha'.
    simpl in Ha'. by rewrite andb_false_r in Ha'.
  - injection Heq as -> Heq. apply IH in Heq as [-> ->]. done.
Qed.

Lemma pretty_N_go_no_bar (x : N) : ∀ s,
  no_bar s = true → no_bar (pretty_N_go x s) = true.
Proof.
  induction (N.lt_wf_0 x) as [x _ IH]; intros s Hs.
  assert (x = 0 ∨ 0 < x)%N as [->|Hpos] by lia.
  - by rewrite pretty_N_go_0.
  - rewrite pretty_N_go_step by done. apply IH.
    { by apply N.div_lt. }
    simpl. rewrite Hs. unfold pretty_N_char. by repeat case_match.
Qed.

Lemma pretty_Z_no_bar (z : Z) : no_bar (pretty z) = true.
Proof.
  destruct z as [|p|p]; [done|..];
    unfold pretty, pretty_Z, pretty, pretty_positive, pretty, pretty_N.
  - rewrite decide_False by done. by apply pretty_N_go_no_bar.
  - rewrite decide_False by done. rewrite string_app_cons. simpl.
    by apply pretty_N_go_no_bar.
Qed.

Section KeyStringFacts.
Context {V : Type} `{!PyAny V}.

(** X19: [_generate_retrieval_key] hashes [key_str], and for one filter
    (or two filters with the same [filter_str], as [{}] and [None])
    [key_str] determines the query text and [top_k]: a ["|"] in the query
    cannot be taken for a separator.  Two such queries get one key only
    when they are the same or the digest collides. *)
Theorem key_str_determines_query :
  (∀ (md5 : string → string) query top_k (filter_criteria : option (dict V)),
     _generate_retrieval_key md5 query top_k filter_criteria
     = md5 (key_str query top_k filter_criteria))
  ∧ (∀ query top_k (filter1 : option (dict V)) query' top_k' filter2,
       filter_str filter1 = filter_str filter2 →
       key_str query top_k filter1 = key_str query' top_k' filter2 →
       query = query' ∧ top_k = top_k').
Proof.
  split; [done|].
  intros q k f1 q' k' f2 Hf Heq. unfold key_str in Heq. rewrite Hf in Heq.
  assert (∀ a b : string,
            a +:+ "|" +:+ b +:+ "|" +:+ filter_str f2
            = (a +:+ "|" +:+ b) +:+ ("|" +:+ filter_str f2)) as Hcut
    by (intros; by rewrite !string_app_assoc).
  rewrite !Hcut in Heq. apply string_app_inv_tail in Heq.
  apply bar_split in Heq as [-> Hk]; [|apply pretty_Z_no_bar..].
  split; [done|]. by apply (inj pretty).
Qed.
End KeyStringFacts.

(** ** [_load_cache], [_save_cache] *)

Section EmbeddingCacheFileFacts.
Context {V Score Obj W : Type}.
Variable open_load : string → W → (load_exception + Obj) * W.
Variable open_dump :
  string → embedding_cache_attr (Obj:=Obj) → W → result unit * W.

(** X20: when [_load_cache] returns, [self.embedding_cache] is what was
    unpickled, or [{}] if the file is missing or ends early: it is no
    longer the [EmbeddingCache] object.  Any other exception of the load
    goes on to the caller and the attribute stays as it was.
    [_save_cache] never raises and never changes the attribute. *)
Theorem load_cache_replaces (e : RetrivalEngine V Score)
    (embedding_cache : embedding_cache_attr) (w : W) :
  let file := os_path_join (cache_dir e) "embedding_cache.pkl" in
  let out := _load_cache open_load e embedding_cache w in
  (out.1.1 = Ok () →
   out.1.2 ≠ TheEmbeddingCache
   ∧ ((∃ o, (open_load file w).1 = inr o ∧ out.1.2 = Unpickled o)
      ∨ (((open_load file w).1 = inl FileNotFoundError
          ∨ (open_load file w).1 = inl EOFError)
         ∧ out.1.2 = EmptyDict)))
  ∧ (∀ exn, out.1.1 = Raise exn ↔
            (open_load file w).1 = inl (OtherException exn))
  ∧ (∀ exn, out.1.1 = Raise exn → out.1.2 = embedding_cache)
  ∧ (_save_cache open_dump e embedding_cache w).1
    = (Ok (), embedding_cache).
Proof.
  simpl. unfold _load_cache, _save_cache.
  destruct (open_load _ w) as [[[| |exn]|o] w']; simpl.
  - repeat split; try done; eauto; try (by intros [= <-]).
    by destruct (open_dump _ _ _) as [[[]|?] ?].
  - repeat split; try done; eauto; try (by intros [= <-]).
    by destruct (open_dump _ _ _) as [[[]|?] ?].
  - repeat split; try done; try (by intros [= <-]); try (by intros [= ->]).
    by destruct (open_dump _ _ _) as [[[]|?] ?].
  - repeat split; try done; eauto; try (by intros [= <-]).
    by destruct (open_dump _ _ _) as [[[]|?] ?].
Qed.
End EmbeddingCacheFileFacts.

(** ** Worked examples of the further properties *)

Section MoreExamples.
Import Demo Outage.

Lemma failed_operation_keeps_cache_witness :
  let out := run_op demo (DeleteItem (demo_uuid 0)) queried_down in
  out.1 = Raise unavailable
  ∧ self out.2 = self queried_down
  ∧ (get_retrivals demo "hello world" 5 None out.2).1
    = Ok [ {| r_id := demo_uuid 0; r_score := 1%Z;
              r_metadata := [("content", SStr "hello world");
                             ("item_type", SStr "article")] |} ].
Proof.
  intros out.
  assert (run_op demo (DeleteItem (demo_uuid 0)) queried_down
          = (Raise unavailable, out.2)) as Hrun by (vm_compute; reflexivity).
  destruct (failed_operation_keeps_cache demo _ _ _ _ Hrun)
    as (Hself&_&Hhit).
  split; [vm_compute; reflexivity|]. split; [exact Hself|].
  rewrite (Hhit "hello world" 5%Z None _ ltac:(vm_compute; reflexivity)).
  reflexivity.
Defined.

Lemma bulk_add_items_failure_witness :
  let s := cut_off (started heap0) in
  let out := bulk_add_items demo ["a"; "b"] [0; 1] ["x"; "y"] s in
  out.1 = Raise unavailable
  ∧ self out.2 = self s
  ∧ heap out.2 !! 0 = Some [("content", SStr "a"); ("item_type", SStr "x")].
Proof.
  intros s out.
  assert (bulk_add_items demo ["a"; "b"] [0; 1] ["x"; "y"] s
          = (Raise unavailable, out.2)) as Hrun by (vm_compute; reflexivity).
  destruct (bulk_add_items_failure demo _ _ _ _ _ _ Hrun) as [Hself _].
  split; [vm_compute; reflexivity|]. split; [exact Hself|].
  vm_compute. reflexivity.
Defined.

Lemma get_retrivals_repeat_witness :
  let out := get_retrivals demo "hello world" 5 None stocked in
  get_retrivals demo "hello world" 5 None out.2
  = (Ok [ {| r_id := demo_uuid 0; r_score := 1%Z;
             r_metadata := [("content", SStr "hello world");
                            ("item_type", SStr "article")] |} ], out.2).
Proof.
  intros out. apply get_retrivals_repeat with (s := stocked).
  vm_compute. reflexivity.
Defined.


Lemma construction_failure_witness :
  let s := cut_off (state0 heap0) in
  let out := __init__ demo "recommendation-index" "./embedding_cache" s in
  out.1 = Raise unavailable
  ∧ trace out.2 = [EvMakedirs "./embedding_cache";
                   EvEmbeddingCache "./embedding_cache";
                   EvInitializePinecone "recommendation-index"]
  ∧ heap out.2 = heap0.
Proof.
  intros s out.
  assert (__init__ demo "recommendation-index" "./embedding_cache" s
          = (Raise unavailable, out.2)) as Hrun by (vm_compute; reflexivity).
  destruct (construction_failure demo _ _ _ _ _ Hrun) as (_&_&Hheap&_).
  split; [vm_compute; reflexivity|]. split; [vm_compute; reflexivity|].
  exact Hheap.
Defined.

Lemma construction_calls_witness :
  ∃ s', __init__ demo "recommendation-index" "./embedding_cache"
                 (state0 heap0) = (Ok (), s')
        ∧ trace s' = [EvMakedirs "./embedding_cache";
                      EvEmbeddingCache "./embedding_cache";
                      EvInitializePinecone "recommendation-index";
                      EvPineconeIndex "recommendation-index";
                      EvPathExists "./embedding_cache/retrieval_cache.pkl"].
Proof.
  destruct (construction_calls demo "recommendation-index"
              "./embedding_cache" (state0 heap0)
              world0 world0 world0 world0
              eq_refl eq_refl eq_refl eq_refl)
    as (s'&Hrun&_&_&_&Htrace).
  exists s'. split; [exact Hrun|]. rewrite Htrace. reflexivity.
Defined.

Lemma bulk_add_items_upsert_witness :
  let out := bulk_add_items demo ["a"; "b"] [0; 0] ["x"; "y"]
                            (started heap0) in
  out.1 = Ok ["item_0"; "item_1"]
  ∧ ∃ vectors : list (vector scalar (list Z)),
      last (trace out.2)
      = Some (EvPickleDump "./embedding_cache/retrieval_cache.pkl" ∅)
      ∧ v_id <$> vectors = ["item_0"; "item_1"]
      ∧ ∀ v, v ∈ vectors →
             v_metadata v = [("content", SStr "b"); ("item_type", SStr "y")].
Proof.
  intros out.
  assert (bulk_add_items demo ["a"; "b"] [0; 0] ["x"; "y"] (started heap0)
          = (Ok ["item_0"; "item_1"], out.2)) as Hrun
    by (vm_compute; reflexivity).
  destruct (bulk_add_items_upsert demo _ _ _ _ _ _ Hrun)
    as (vectors&Htrace&Hids&Hmeta&_).
  split; [vm_compute; reflexivity|]. exists vectors.
  split; [vm_compute; reflexivity|]. split; [exact Hids|].
  intros v [i Hv]%list_elem_of_lookup.
  destruct (Hmeta i v Hv) as (m&Hm&->). clear -Hm.
  destruct i as [|[|i]]; simpl in Hm; [injection Hm as <-..|discriminate];
    vm_compute; reflexivity.
Defined.

Lemma bulk_add_items_ids_distinct_witness :
  NoDup ["item_0"; "item_1"; "item_2"].
Proof.
  apply (bulk_add_items_ids_distinct demo ["c"; "d"; "e"] [0; 1; 2]
           ["x"; "y"; "z"] (started heap0) _
           (bulk_add_items demo ["c"; "d"; "e"] [0; 1; 2] ["x"; "y"; "z"]
                           (started heap0)).2).
  vm_compute. reflexivity.
Defined.

Lemma cache_entry_provenance_witness :
  let os := [GetRetrivals "hello world" 5 None] in
  let key := "dcc701b9c40bc42643e09272ec1b5f1e" in
  let recs := [ {| r_id := demo_uuid 0; r_score := 1%Z;
                   r_metadata := [("content", SStr "hello world");
                                  ("item_type", SStr "article")] |} ] in
  retrieval_cache (self stocked) !! key = Some recs
  ∨ ∃ before query top_k filter_criteria after embedding w1 matches w2,
      os = before ++ GetRetrivals query top_k filter_criteria :: after
      ∧ key = _generate_retrieval_key (md5_hexdigest demo) query top_k
                                      filter_criteria
      ∧ get_embedding demo query (world (run_ops demo before stocked))
        = (Ok embedding, w1)
      ∧ index_query demo embedding top_k true filter_criteria w1
        = (Ok matches, w2)
      ∧ recs = format_match <$> matches.
Proof.
  intros os key recs. apply cache_entry_provenance.
  vm_compute. reflexivity.
Defined.

Lemma dicts_frame_witness :
  let os := [AddItem "hello world" 0 "article";
             GetRetrivals "hello world" 5 None;
             DeleteItem (demo_uuid 0)] in
  heap (run_ops demo os (started heap0)) !! 1 = Some [("lang", SStr "en")].
Proof.
  intros os. rewrite (dicts_frame demo os (started heap0) 1).
  - vm_compute. reflexivity.
  - intros o Ho. apply list_elem_of_In in Ho. simpl in Ho.
    destruct Ho as [<-|[<-|[<-|[]]]]; simpl;
      [|apply not_elem_of_nil..].
    apply not_elem_of_cons. split; [done|apply not_elem_of_nil].
Defined.
End MoreExamples.
